(** * Verification of the boosted-regression learner (src/learner/learner-inl.h)

    A shallow embedding of [xgboost::learner::BoostLearner] and of its nested
    [ModelParam] record, followed by the properties of the training controller.

    Modelling conventions.
    - [float] is IEEE-754 binary32, taken from the Standard Library's
      [SpecFloat] (precision 24, emax 128, round to nearest even).  NaN carries
      no payload there.
    - [int] and [unsigned] are 32 bits wide, [size_t] values are naturals of
      unbounded size ([N]); every narrowing cast is written out as a wrap.
    - A call that terminates the process ([utils::Assert], [utils::Error])
      yields [Fatal]; an access outside a vector or through an unset pointer
      yields [Undef].
    - The headers dmatrix.h, utils/io.h, utils/utils.h and gbm/gbtree-inl.h are
      not part of the sources: the ensemble ([gbm::GBTree]) and the feature
      matrix are interfaces, the stream is a byte queue.
    - [#pragma omp parallel for] loops are run in index order.
    - [evaluator_] (evaluation.h is not part of the sources either) and the
      two members that use it, [InitTrainer] and the learner-level [SetParam],
      live in the module [Evaluated], which pairs the learner with its
      evaluator. *)

From Stdlib Require Import ZArith NArith Lia List String Ascii Bool.
From Stdlib Require Import Floats.SpecFloat DecimalString DecimalPos.
From coqutil Require Import Word.LittleEndianList Byte.
From stdpp Require Import base list.

Open Scope Z_scope.

(** ** Outcomes of a member function *)

Inductive undefined_behaviour := IndexOutOfRange | NullDereference.

Inductive result (A : Type) : Type :=
| Ok (a : A)
| Fatal (msg : string)
| Undef (u : undefined_behaviour).

Arguments Ok {A} a.
Arguments Fatal {A} msg.
Arguments Undef {A} u.

#[global] Instance result_ret : MRet result := fun A a => Ok a.
#[global] Instance result_bind : MBind result := fun A B f r =>
  match r with
  | Ok a => f a
  | Fatal msg => Fatal msg
  | Undef u => Undef u
  end.

(** [utils::Assert(exp, msg)]: terminates the process when [exp] is false. *)
Definition Assert (exp : bool) (msg : string) : result unit :=
  if exp then Ok tt else Fatal msg.

(** [utils::Error(msg)]: always terminates the process. *)
Definition Error {A : Type} (msg : string) : result A := Fatal msg.

(** ** Machine integers *)

Definition to_uint32 (z : Z) : Z := z mod 2 ^ 32.

Definition to_int32 (z : Z) : Z := (z + 2 ^ 31) mod 2 ^ 32 - 2 ^ 31.

Definition is_int32 (z : Z) : Prop := - 2 ^ 31 <= z < 2 ^ 31.

(** ** binary32 arithmetic *)

Module F32.
Definition prec : Z := 24.
Definition emax : Z := 128.

Definition float := spec_float.

Definition add : float -> float -> float := SFadd prec emax.
Definition sub : float -> float -> float := SFsub prec emax.
Definition mul : float -> float -> float := SFmul prec emax.
Definition div : float -> float -> float := SFdiv prec emax.
Definition neg : float -> float := SFopp.
Definition ltb : float -> float -> bool := SFltb.
Definition leb : float -> float -> bool := SFleb.
Definition eqb : float -> float -> bool := SFeqb.
Definition valid : float -> bool := valid_binary prec emax.

(** conversion of an integer constant, as in [1 - predt] *)
Definition of_Z (n : Z) : float := binary_normalize prec emax n 0 false.

Definition zero : float := S754_zero false.
Definition one : float := Eval cbv in of_Z 1.
Definition half : float := S754_finite false 8388608 (-24).

(** The object representation of a [float]: sign, 8 bits of biased
    exponent, 23 bits of fraction. *)
Definition sign_bit (s : bool) : Z := if s then 2 ^ 31 else 0.

Definition to_bits (f : float) : Z :=
  match f with
  | S754_zero s => sign_bit s
  | S754_infinity s => sign_bit s + 255 * 2 ^ 23
  | S754_nan => 255 * 2 ^ 23 + 2 ^ 22
  | S754_finite s m e =>
      sign_bit s +
      (if Z.pos m <? 2 ^ 23 then Z.pos m
       else (e + 150) * 2 ^ 23 + (Z.pos m - 2 ^ 23))
  end.

Definition of_bits (x : Z) : float :=
  let s := Z.testbit x 31 in
  let ex := Z.land (Z.shiftr x 23) 255 in
  let fr := Z.land x (2 ^ 23 - 1) in
  if ex =? 0 then
    if fr =? 0 then S754_zero s else S754_finite s (Z.to_pos fr) (-149)
  else if ex =? 255 then
    if fr =? 0 then S754_infinity s else S754_nan
  else S754_finite s (Z.to_pos (fr + 2 ^ 23)) (ex - 150).
End F32.

Abbreviation float32 := F32.float.

(** ** The C library

    [atoi] follows ISO C: leading white space, an optional sign, then decimal
    digits up to the first other character.  A value outside [int] is
    undefined in C; here it wraps to 32 bits. *)

Definition isspace (c : ascii) : bool :=
  let n := Z.of_N (N_of_ascii c) in
  (n =? 32) || ((9 <=? n) && (n <=? 13)).

Definition digit_value (c : ascii) : option Z :=
  let n := Z.of_N (N_of_ascii c) in
  if (48 <=? n) && (n <=? 57) then Some (n - 48) else None.

Fixpoint skip_space (s : string) : string :=
  match s with
  | String c rest => if isspace c then skip_space rest else s
  | EmptyString => s
  end.

Fixpoint read_digits (acc : Z) (s : string) : Z :=
  match s with
  | String c rest =>
      match digit_value c with
      | Some d => read_digits (10 * acc + d) rest
      | None => acc
      end
  | EmptyString => acc
  end.

Definition strtol10 (s : string) : Z :=
  match skip_space s with
  | String "-"%char rest => - read_digits 0 rest
  | String "+"%char rest => read_digits 0 rest
  | rest => read_digits 0 rest
  end.

Definition atoi (s : string) : Z := to_int32 (strtol10 s).

(** [sprintf(buf, "%d", n)] and [sprintf(buf, "%u", n)] *)
Definition sprintf_d (n : Z) : string := NilZero.string_of_int (Z.to_int n).
Definition sprintf_u (n : Z) : string := NilZero.string_of_int (Z.to_int n).

(** [!strcmp(a, b)] *)
Definition streq (a b : string) : bool := String.eqb a b.

(** The floating-point routines of the C library are taken as given:
    [atof] stands for [(float)atof(val)]. *)
Record LibM := {
  atof : string -> float32;
  expf : float32 -> float32;
  logf : float32 -> float32
}.

(** ** [struct ModelParam] *)

(** [enum LossType] *)
Definition kLinearSquare : Z := 0.
Definition kLogisticNeglik : Z := 1.
Definition kLogisticClassify : Z := 2.

Module ModelParam.
Record t := mk {
  base_score : float32;
  loss_type : Z;
  num_feature : Z;
  reserved : list Z
}.

Section WithLibM.
Context (libm : LibM).

(** [ModelParam(void)] *)
Definition init : t :=
  {| base_score := F32.half; loss_type := 0; num_feature := 0;
     reserved := replicate 16 0 |}.

Definition set_base_score (v : float32) (m : t) : t :=
  {| base_score := v; loss_type := loss_type m;
     num_feature := num_feature m; reserved := reserved m |}.
Definition set_loss_type (v : Z) (m : t) : t :=
  {| base_score := base_score m; loss_type := v;
     num_feature := num_feature m; reserved := reserved m |}.
Definition set_num_feature (v : Z) (m : t) : t :=
  {| base_score := base_score m; loss_type := loss_type m;
     num_feature := v; reserved := reserved m |}.

(** [ModelParam::SetParam]: three independent tests, in this order. *)
Definition SetParam (m : t) (name val : string) : t :=
  let m1 := if streq "base_score" name
            then set_base_score (atof libm val) m else m in
  let m2 := if streq "loss_type" name
            then set_loss_type (atoi val) m1 else m1 in
  if streq "bst:num_feature" name
  then set_num_feature (atoi val) m2 else m2.

(** [ModelParam::AdjustBase] *)
Definition AdjustBase (m : t) : result t :=
  if (loss_type m =? 1) || (loss_type m =? 2) then
    _ ← Assert (F32.ltb F32.zero (base_score m)
                && F32.ltb (base_score m) F32.one)
               "sigmoid range constrain";
    Ok (set_base_score
          (F32.neg (logf libm
             (F32.sub (F32.div F32.one (base_score m)) F32.one))) m)
  else Ok m.

(** [ModelParam::PredTransform] *)
Definition PredTransform (m : t) (x : float32) : result float32 :=
  if loss_type m =? kLinearSquare then Ok x
  else if (loss_type m =? kLogisticClassify)
          || (loss_type m =? kLogisticNeglik)
  then Ok (F32.div F32.one (F32.add F32.one (expf libm (F32.neg x))))
  else Error "unknown loss_type".

(** [ModelParam::FirstOrderGradient] *)
Definition FirstOrderGradient (m : t) (predt label : float32)
  : result float32 :=
  if loss_type m =? kLinearSquare then Ok (F32.sub predt label)
  else if (loss_type m =? kLogisticClassify)
          || (loss_type m =? kLogisticNeglik)
  then Ok (F32.sub predt label)
  else Error "unknown loss_type".

(** [ModelParam::SecondOrderGradient] *)
Definition SecondOrderGradient (m : t) (predt label : float32)
  : result float32 :=
  if loss_type m =? kLinearSquare then Ok F32.one
  else if (loss_type m =? kLogisticClassify)
          || (loss_type m =? kLogisticNeglik)
  then Ok (F32.mul predt (F32.sub (F32.of_Z 1) predt))
  else Error "unknown loss_type".
End WithLibM.
End ModelParam.


(** ** The persisted record

    [fo.Write(&mparam, sizeof(ModelParam))] copies the object representation
    of the record: a [float], two [int]s and sixteen [int]s, four bytes each,
    little-endian, without padding (76 bytes). *)

Definition sizeof_ModelParam : nat := 76.

Definition ModelParam_to_bytes (m : ModelParam.t) : list byte :=
  le_split 4 (F32.to_bits (ModelParam.base_score m))
  ++ le_split 4 (ModelParam.loss_type m)
  ++ le_split 4 (ModelParam.num_feature m)
  ++ flat_map (le_split 4) (ModelParam.reserved m).

(** the [int] stored at byte offset [off] *)
Definition int_at (off : nat) (bs : list byte) : Z :=
  to_int32 (le_combine (take 4 (drop off bs))).

Definition ModelParam_of_bytes (bs : list byte) : ModelParam.t :=
  {| ModelParam.base_score := F32.of_bits (le_combine (take 4 bs));
     ModelParam.loss_type := int_at 4 bs;
     ModelParam.num_feature := int_at 8 bs;
     ModelParam.reserved :=
       map (fun i => int_at (12 + 4 * i) bs) (seq 0 16) |}.

(** the records whose fields fit their C types *)
Definition ModelParam_valid (m : ModelParam.t) : Prop :=
  F32.valid (ModelParam.base_score m) = true
  /\ is_int32 (ModelParam.loss_type m)
  /\ is_int32 (ModelParam.num_feature m)
  /\ List.length (ModelParam.reserved m) = 16%nat
  /\ Forall is_int32 (ModelParam.reserved m).

(** Modelled from the spec: [utils::IStream] (utils/io.h is missing), a
    stream of bytes; here the queue of the bytes written and not yet read. *)
Definition IStream := list byte.

(** Modelled from the spec: [IStream::Write] (utils/io.h is missing) appends
    [size] bytes of the source object. *)
Definition Write (fo : IStream) (obj : list byte) (size : nat) : IStream :=
  fo ++ take size obj.

(** Modelled from the spec: [IStream::Read] (utils/io.h is missing) copies the
    bytes available, up to [size], over the front of the destination object.
    Its result is all or nothing: [size] when the whole block was read, 0
    when the stream ended before, so that the non-zero test [LoadModel]
    makes on it rejects a truncated record, as the spec requires. *)
Definition Read (fi : IStream) (obj : list byte) (size : nat)
  : nat * list byte * IStream :=
  let got := take size fi in
  (if Nat.eqb (List.length got) size then size else 0%nat,
   got ++ drop (List.length got) obj, drop size fi).

(** ** Collaborators *)

(** Modelled from the spec: the feature matrix ([FMatrixS], dmatrix.h is
    missing) exposes its column count. *)
Class FMatrix (FM : Type) := { NumCol : FM -> N }.

(** Modelled from the spec: the dataset ([DMatrix], dmatrix.h is missing)
    exposes a row count, a feature matrix and a label array. *)
Record DMatrix (FM : Type) := mkDMatrix {
  data : FM;
  labels : list float32;
  Size : N
}.

Arguments mkDMatrix {FM} data labels Size.
Arguments data {FM} d.
Arguments labels {FM} d.
Arguments Size {FM} d.

(** Modelled from the spec: the ensemble ([gbm::GBTree], gbm/gbtree-inl.h is
    missing) with the six members the learner calls.  [SaveModel] yields the
    bytes it writes; [LoadModel] consumes its segment or ends the process. *)
Class GBTree (FM G : Type) := {
  gbm_SetParam : G -> string -> string -> G;
  gbm_InitModel : G -> G;
  gbm_Predict : G -> FM -> Z -> Z -> float32 * G;
  gbm_DoBoost : G -> list float32 -> list float32 -> FM -> list Z -> G;
  gbm_SaveModel : G -> list byte;
  gbm_LoadModel : G -> IStream -> result (G * IStream)
}.

(** ** Vectors and loops *)

(** [v[j]] read *)
Definition vec_get {A : Type} (v : list A) (j : Z) : result A :=
  if (0 <=? j) && (j <? Z.of_nat (List.length v)) then
    match v !! Z.to_nat j with
    | Some a => Ok a
    | None => Undef IndexOutOfRange
    end
  else Undef IndexOutOfRange.

(** [v[j] = a] *)
Definition vec_set {A : Type} (v : list A) (j : Z) (a : A) : result (list A) :=
  if (0 <=? j) && (j <? Z.of_nat (List.length v))
  then Ok (<[Z.to_nat j := a]> v)
  else Undef IndexOutOfRange.

(** [for (unsigned j = from; j < from + count; ++j) body] *)
Fixpoint for_loop {St : Type} (body : Z -> St -> result St)
  (from : Z) (count : nat) (s : St) : result St :=
  match count with
  | O => Ok s
  | S c => s' ← body from s; for_loop body (from + 1) c s'
  end.

(** what an invariant [P] says of the outcome of a computation: no undefined
    behaviour, and [P] of the value when there is one *)
Definition safely {St : Type} (P : St -> Prop) (r : result St) : Prop :=
  match r with
  | Ok s => P s
  | Fatal _ => True
  | Undef _ => False
  end.

(** ** [class BoostLearner] *)

Definition newline : string := String (ascii_of_nat 10) EmptyString.

Module BoostLearner.
Section WithCollaborators.
Context (libm : LibM) {FM G : Type} {fmat : FMatrix FM} {gbm : GBTree FM G}.

(** The members of the class; [console] is the text printed so far. *)
Record t := mk {
  silent : Z;
  base_gbm : G;
  train_ : option (DMatrix FM);
  evals_ : list (DMatrix FM);
  evname_ : list string;
  mparam : ModelParam.t;
  grad_ : list float32;
  hess_ : list float32;
  preds_ : list float32;
  eval_preds_ : list (list float32);
  console : list string
}.

(** [BoostLearner(void)], around a freshly constructed ensemble *)
Definition init (g : G) : t :=
  {| silent := 0; base_gbm := g; train_ := None; evals_ := []; evname_ := [];
     mparam := ModelParam.init; grad_ := []; hess_ := []; preds_ := [];
     eval_preds_ := []; console := [] |}.

(** the body of the loop over [evals] in [SetData] *)
Definition SetData_step (acc : Z * Z) (ev : DMatrix FM) : Z * Z :=
  let '(buffer_size, num_feature) := acc in
  (to_uint32 (buffer_size + to_uint32 (Z.of_N (Size ev))),
   Z.max num_feature (to_int32 (Z.of_N (NumCol (data ev))))).

(** the values of [buffer_size] and [num_feature] after that loop *)
Definition SetData_bounds (train : DMatrix FM) (evals : list (DMatrix FM))
  : Z * Z :=
  fold_left SetData_step evals
    (to_uint32 (Z.of_N (Size train)),
     to_int32 (Z.of_N (NumCol (data train)))).

(** [BoostLearner::SetData] *)
Definition SetData (L : t) (train : DMatrix FM) (evals : list (DMatrix FM))
  (evname : list string) : t :=
  let '(buffer_size, num_feature) := SetData_bounds train evals in
  let '(mp, g1) :=
    if num_feature >? ModelParam.num_feature (mparam L)
    then (ModelParam.set_num_feature num_feature (mparam L),
          gbm_SetParam (base_gbm L) "bst:num_feature" (sprintf_d num_feature))
    else (mparam L, base_gbm L) in
  let g2 := gbm_SetParam g1 "num_pbuffer" (sprintf_u buffer_size) in
  {| silent := silent L;
     base_gbm := g2;
     train_ := Some train;
     evals_ := evals;
     evname_ := evname;
     mparam := mp;
     grad_ := grad_ L; hess_ := hess_ L; preds_ := preds_ L;
     eval_preds_ := resize (List.length evals) [] (eval_preds_ L);
     console :=
       if silent L =? 0
       then console L
            ++ [("buffer_size=" ++ sprintf_u buffer_size ++ newline)%string]
       else console L |}.

(** [BoostLearner(train, evals, evname)] *)
Definition init_bound (g : G) (train : DMatrix FM) (evals : list (DMatrix FM))
  (evname : list string) : t :=
  SetData (init g) train evals evname.

(** [BoostLearner::SaveModel] *)
Definition SaveModel (L : t) (fo : IStream) : IStream :=
  let fo1 := fo ++ gbm_SaveModel (base_gbm L) in
  Write fo1 (ModelParam_to_bytes (mparam L)) sizeof_ModelParam.

(** [BoostLearner::LoadModel] *)
Definition LoadModel (L : t) (fi : IStream) : result (t * IStream) :=
  '(g, fi1) ← gbm_LoadModel (base_gbm L) fi;
  let '(n, obj, fi2) :=
    Read fi1 (ModelParam_to_bytes (mparam L)) sizeof_ModelParam in
  _ ← Assert (negb (Nat.eqb n 0)) "";
  Ok ({| silent := silent L; base_gbm := g; train_ := train_ L;
         evals_ := evals_ L; evname_ := evname_ L;
         mparam := ModelParam_of_bytes obj;
         grad_ := grad_ L; hess_ := hess_ L; preds_ := preds_ L;
         eval_preds_ := eval_preds_ L; console := console L |}, fi2).

(** [BoostLearner::InitModel] *)
Definition InitModel (L : t) : result t :=
  let g := gbm_InitModel (base_gbm L) in
  mp ← ModelParam.AdjustBase libm (mparam L);
  Ok {| silent := silent L; base_gbm := g; train_ := train_ L;
        evals_ := evals_ L; evname_ := evname_ L; mparam := mp;
        grad_ := grad_ L; hess_ := hess_ L; preds_ := preds_ L;
        eval_preds_ := eval_preds_ L; console := console L |}.

(** the body of the loop in [PredictBuffer] *)
Definition PredictBuffer_step (m : ModelParam.t) (dat : DMatrix FM)
  (buffer_offset : Z) (j : Z) (s : list float32 * G)
  : result (list float32 * G) :=
  let '(preds, g) := s in
  let '(raw, g') := gbm_Predict g (data dat) j (to_uint32 (buffer_offset + j)) in
  p ← ModelParam.PredTransform libm m (F32.add (ModelParam.base_score m) raw);
  preds' ← vec_set preds j p;
  Ok (preds', g').

(** [BoostLearner::PredictBuffer] *)
Definition PredictBuffer (m : ModelParam.t) (g : G) (preds : list float32)
  (dat : DMatrix FM) (buffer_offset : Z) : result (list float32 * G) :=
  let preds0 := resize (N.to_nat (Size dat)) F32.zero preds in
  let ndata := to_uint32 (Z.of_N (Size dat)) in
  for_loop (PredictBuffer_step m dat buffer_offset) 0 (Z.to_nat ndata)
    (preds0, g).

(** the body of the loop in [GetGradient] *)
Definition GetGradient_step (m : ModelParam.t) (preds labels : list float32)
  (j : Z) (s : list float32 * list float32)
  : result (list float32 * list float32) :=
  let '(grad, hess) := s in
  p ← vec_get preds j;
  y ← vec_get labels j;
  d1 ← ModelParam.FirstOrderGradient m p y;
  grad' ← vec_set grad j d1;
  p' ← vec_get preds j;
  y' ← vec_get labels j;
  d2 ← ModelParam.SecondOrderGradient m p' y';
  hess' ← vec_set hess j d2;
  Ok (grad', hess').

(** [BoostLearner::GetGradient] *)
Definition GetGradient (m : ModelParam.t) (preds labels grad hess : list float32)
  : result (list float32 * list float32) :=
  let n := List.length preds in
  let grad0 := resize n F32.zero grad in
  let hess0 := resize n F32.zero hess in
  let ndata := to_uint32 (Z.of_nat n) in
  for_loop (GetGradient_step m preds labels) 0 (Z.to_nat ndata) (grad0, hess0).

(** [BoostLearner::UpdateOneIter] *)
Definition UpdateOneIter (L : t) (iter : Z) : result t :=
  match train_ L with
  | None => Undef NullDereference
  | Some train =>
      '(preds, g) ← PredictBuffer (mparam L) (base_gbm L) (preds_ L) train 0;
      '(grad, hess) ← GetGradient (mparam L) preds (labels train)
                        (grad_ L) (hess_ L);
      let root_index : list Z := [] in
      let g' := gbm_DoBoost g grad hess (data train) root_index in
      Ok {| silent := silent L; base_gbm := g'; train_ := train_ L;
            evals_ := evals_ L; evname_ := evname_ L; mparam := mparam L;
            grad_ := grad; hess_ := hess; preds_ := preds;
            eval_preds_ := eval_preds_ L; console := console L |}
  end.
End WithCollaborators.

Arguments t : clear implicits.
End BoostLearner.

(** ** A recording ensemble

    An instrumented wrapper around any ensemble: it forwards every call and
    keeps the list of the calls it has forwarded.  It is the means to state
    which calls the learner makes. *)

Module Recorder.
Inductive call (FM : Type) :=
| CSetParam (name val : string)
| CInitModel
| CPredict (fm : FM) (ridx slot : Z)
| CDoBoost (grad hess : list float32) (fm : FM) (root_index : list Z)
| CLoadModel.

Arguments CSetParam {FM} name val.
Arguments CInitModel {FM}.
Arguments CPredict {FM} fm ridx slot.
Arguments CDoBoost {FM} grad hess fm root_index.
Arguments CLoadModel {FM}.

(** the [(row, slot)] pair of a [Predict] call *)
Definition predicted_by {FM : Type} (c : call FM) : list (Z * Z) :=
  match c with CPredict _ ridx slot => [(ridx, slot)] | _ => [] end.

(** the [(row, slot)] pairs of the [Predict] calls of a log, in order *)
Definition predicted {FM : Type} (log : list (call FM)) : list (Z * Z) :=
  flat_map predicted_by log.

(** the value of a [SetParam] call made under [name] *)
Definition param_named {FM : Type} (name : string) (c : call FM)
  : list string :=
  match c with
  | CSetParam n v => if streq name n then [v] else []
  | _ => []
  end.

(** the values of the [SetParam] calls of a log made under [name], in order *)
Definition params_named {FM : Type} (name : string) (log : list (call FM))
  : list string :=
  flat_map (param_named name) log.

#[global] Instance recording {FM G : Type} (inner : GBTree FM G)
  : GBTree FM (G * list (call FM)) := {|
  gbm_SetParam s name val :=
    (gbm_SetParam s.1 name val, s.2 ++ [CSetParam name val]);
  gbm_InitModel s := (gbm_InitModel s.1, s.2 ++ [CInitModel]);
  gbm_Predict s fm ridx slot :=
    let '(raw, g) := gbm_Predict s.1 fm ridx slot in
    (raw, (g, s.2 ++ [CPredict fm ridx slot]));
  gbm_DoBoost s grad hess fm root_index :=
    (gbm_DoBoost s.1 grad hess fm root_index,
     s.2 ++ [CDoBoost grad hess fm root_index]);
  gbm_SaveModel s := gbm_SaveModel s.1;
  gbm_LoadModel s fi :=
    '(g, fi') ← gbm_LoadModel s.1 fi;
    Ok ((g, s.2 ++ [CLoadModel]), fi')
|}.

(** the arguments of a [DoBoost] call *)
Definition boosted_by {FM : Type} (c : call FM)
  : list (list float32 * list float32 * FM * list Z) :=
  match c with
  | CDoBoost grad hess fm root_index => [(grad, hess, fm, root_index)]
  | _ => []
  end.

(** the arguments of the [DoBoost] calls of a log, in order *)
Definition boosted {FM : Type} (log : list (call FM))
  : list (list float32 * list float32 * FM * list Z) :=
  flat_map boosted_by log.

(** the [Predict] calls for the rows below [n] of the matrix [fm], row [j]
    with the slot [off + j] *)
Definition predict_calls {FM : Type} (fm : FM) (off n : Z) : list (call FM) :=
  map (fun j => CPredict fm j (to_uint32 (off + j))) (seqZ 0 n).

(** the calls recorded so far by a learner built on a recording ensemble *)
Definition log {FM G : Type} (L : BoostLearner.t FM (G * list (call FM)))
  : list (call FM) :=
  (BoostLearner.base_gbm L).2.
End Recorder.

(** ** A stateless ensemble

    The simplest ensemble: it has no members, answers every [Predict] with
    the same value and persists itself as the three bytes "gbm". *)

Module Constant.
Definition segment : list byte := [Byte.x67; Byte.x62; Byte.x6d].

Definition is_segment (bs : list byte) : bool :=
  match bs with
  | [Byte.x67; Byte.x62; Byte.x6d] => true
  | _ => false
  end.

#[global] Instance ensemble (FM : Type) (answer : float32) : GBTree FM unit := {|
  gbm_SetParam g name val := g;
  gbm_InitModel g := g;
  gbm_Predict g fm ridx slot := (answer, g);
  gbm_DoBoost g grad hess fm root_index := g;
  gbm_SaveModel g := segment;
  gbm_LoadModel g fi :=
    if is_segment (take 3 fi) then Ok (g, drop 3 fi)
    else Fatal "invalid model"
|}.

(** a feature matrix known by its column count only *)
#[global] Instance columns_only : FMatrix N := {| NumCol n := n |}.
End Constant.

(** The values ISO C (Annex F) fixes for [expf] and [logf] at their special
    points; at every other argument, and for [atof], this stand-in answers
    NaN.  It serves to run the model on concrete inputs. *)
Definition libm_special_values : LibM :=
  {| atof := fun _ => S754_nan;
     expf := fun x =>
       match x with
       | S754_zero _ => F32.one
       | S754_infinity false => S754_infinity false
       | S754_infinity true => F32.zero
       | _ => S754_nan
       end;
     logf := fun x =>
       match x with
       | S754_zero _ => S754_infinity true
       | S754_infinity false => S754_infinity false
       | S754_finite false 8388608 (-23) => F32.zero
       | _ => S754_nan
       end |}.

(** ** A learner to run

    A learner over a recording, stateless ensemble that answers 0, set for
    LINEAR_SQUARE with a zero bias and bound to four rows of three columns
    labelled [1,0,1,0]. *)
Definition linear_square_learner
  : BoostLearner.t N (unit * list (Recorder.call N)) :=
  {| BoostLearner.silent := 0;
     BoostLearner.base_gbm := (tt, []);
     BoostLearner.train_ :=
       Some (mkDMatrix 3%N [F32.one; F32.zero; F32.one; F32.zero] 4);
     BoostLearner.evals_ := [];
     BoostLearner.evname_ := [];
     BoostLearner.mparam :=
       ModelParam.mk F32.zero kLinearSquare 3 (replicate 16 0);
     BoostLearner.grad_ := [];
     BoostLearner.hess_ := [];
     BoostLearner.preds_ := [];
     BoostLearner.eval_preds_ := [];
     BoostLearner.console := [] |}.

(** A learner over the stateless ensemble, set for LOGISTIC_CLASSIFY with
    127 features and not bound to data. *)
Definition logistic_learner : BoostLearner.t N unit :=
  {| BoostLearner.silent := 1;
     BoostLearner.base_gbm := tt;
     BoostLearner.train_ := None;
     BoostLearner.evals_ := [];
     BoostLearner.evname_ := [];
     BoostLearner.mparam :=
       ModelParam.mk F32.half kLogisticClassify 127 (replicate 16 0);
     BoostLearner.grad_ := [];
     BoostLearner.hess_ := [];
     BoostLearner.preds_ := [];
     BoostLearner.eval_preds_ := [];
     BoostLearner.console := [] |}.

(** ** The learner with its evaluator

    [evaluator_], the private member of the class, and the two members that
    use it.  The record pairs the learner above with the evaluator. *)

(** Modelled from the spec: the metric collaborator ([EvalSet], evaluation.h
    is missing) accepts a metric name with [AddEval]; [Init] follows the
    registrations. *)
Class EvalSet (E : Type) := {
  eval_AddEval : E -> string -> E;
  eval_Init : E -> E
}.

(** Modelled from the spec: the member [InitTrainer] of the ensemble
    ([gbm::GBTree], gbm/gbtree-inl.h is missing), called without arguments. *)
Class GBTreeTrainer (G : Type) := { gbm_InitTrainer : G -> G }.

Module Evaluated.
Section WithCollaborators.
Context (libm : LibM) {FM G E : Type} {gbm : GBTree FM G}
  {trainer : GBTreeTrainer G} {evalset : EvalSet E}.

Record t := mk {
  learner : BoostLearner.t FM G;
  evaluator_ : E
}.

(** [BoostLearner::SetParam] *)
Definition SetParam (T : t) (name val : string) : t :=
  let L := learner T in
  let silent1 :=
    if streq name "silent" then atoi val else BoostLearner.silent L in
  let evaluator1 :=
    if streq name "eval_metric" then eval_AddEval (evaluator_ T) val
    else evaluator_ T in
  let mparam1 := ModelParam.SetParam libm (BoostLearner.mparam L) name val in
  let gbm1 := gbm_SetParam (BoostLearner.base_gbm L) name val in
  {| learner :=
       {| BoostLearner.silent := silent1;
          BoostLearner.base_gbm := gbm1;
          BoostLearner.train_ := BoostLearner.train_ L;
          BoostLearner.evals_ := BoostLearner.evals_ L;
          BoostLearner.evname_ := BoostLearner.evname_ L;
          BoostLearner.mparam := mparam1;
          BoostLearner.grad_ := BoostLearner.grad_ L;
          BoostLearner.hess_ := BoostLearner.hess_ L;
          BoostLearner.preds_ := BoostLearner.preds_ L;
          BoostLearner.eval_preds_ := BoostLearner.eval_preds_ L;
          BoostLearner.console := BoostLearner.console L |};
     evaluator_ := evaluator1 |}.

(** [BoostLearner::InitTrainer] *)
Definition InitTrainer (T : t) : t :=
  let L := learner T in
  let gbm1 := gbm_InitTrainer (BoostLearner.base_gbm L) in
  let evaluator1 :=
    if ModelParam.loss_type (BoostLearner.mparam L) =? kLogisticClassify
    then eval_AddEval (evaluator_ T) "error"
    else eval_AddEval (evaluator_ T) "rmse" in
  {| learner :=
       {| BoostLearner.silent := BoostLearner.silent L;
          BoostLearner.base_gbm := gbm1;
          BoostLearner.train_ := BoostLearner.train_ L;
          BoostLearner.evals_ := BoostLearner.evals_ L;
          BoostLearner.evname_ := BoostLearner.evname_ L;
          BoostLearner.mparam := BoostLearner.mparam L;
          BoostLearner.grad_ := BoostLearner.grad_ L;
          BoostLearner.hess_ := BoostLearner.hess_ L;
          BoostLearner.preds_ := BoostLearner.preds_ L;
          BoostLearner.eval_preds_ := BoostLearner.eval_preds_ L;
          BoostLearner.console := BoostLearner.console L |};
     evaluator_ := eval_Init evaluator1 |}.
End WithCollaborators.

Arguments t : clear implicits.
End Evaluated.

(** ** A recording evaluator

    It keeps the calls it receives, in order. *)

Module EvalRecorder.
Inductive call := CAddEval (name : string) | CInit.

#[global] Instance recording : EvalSet (list call) := {|
  eval_AddEval log name := log ++ [CAddEval name];
  eval_Init log := log ++ [CInit]
|}.
End EvalRecorder.

(** the stateless ensemble has nothing to prepare for training *)
#[global] Instance Constant_trainer : GBTreeTrainer unit :=
  {| gbm_InitTrainer g := g |}.

(** the recording ensemble forwards [InitTrainer]; its log has no entry for
    that call *)
#[global] Instance Recorder_trainer {FM G : Type} (inner : GBTreeTrainer G)
  : GBTreeTrainer (G * list (Recorder.call FM)) :=
  {| gbm_InitTrainer s := (gbm_InitTrainer s.1, s.2) |}.

(** the row count of a list of datasets *)
Definition total_rows {FM : Type} (ds : list (DMatrix FM)) : Z :=
  foldr (fun d acc => Z.of_N (Size d) + acc) 0 ds.

(** the column count of a dataset as [SetData] reads it, through [(int)] *)
Definition int_cols {FM : Type} {fmat : FMatrix FM} (d : DMatrix FM) : Z :=
  to_int32 (Z.of_N (NumCol (data d))).

(** A learner over the stateless ensemble that answers 0.5, with the given
    loss and training set, a bias of 0.5 and nothing else set. *)
Definition bound_learner (loss : Z) (train : DMatrix N)
  : BoostLearner.t N unit :=
  {| BoostLearner.silent := 0;
     BoostLearner.base_gbm := tt;
     BoostLearner.train_ := Some train;
     BoostLearner.evals_ := [];
     BoostLearner.evname_ := [];
     BoostLearner.mparam := ModelParam.mk F32.half loss 0 (replicate 16 0);
     BoostLearner.grad_ := [];
     BoostLearner.hess_ := [];
     BoostLearner.preds_ := [];
     BoostLearner.eval_preds_ := [];
     BoostLearner.console := [] |}.

(** The logistic learner above with a recording evaluator that has not been
    called yet. *)
Definition logistic_trainer : Evaluated.t N unit (list EvalRecorder.call) :=
  {| Evaluated.learner := logistic_learner; Evaluated.evaluator_ := [] |}.

(** * Properties *)

(** ** Comparison of floats *)

Lemma SFcompare_antisym (x y : spec_float) :
  SFcompare y x = option_map CompOpp (SFcompare x y).
Proof.
  destruct x as [sx|sx| |sx mx ex], y as [sy|sy| |sy my ey]; simpl;
    try reflexivity;
    try (destruct sx; reflexivity);
    try (destruct sy; reflexivity);
    try (destruct sx, sy; reflexivity).
  assert (Hm : Pos.compare_cont Eq my mx = CompOpp (Pos.compare_cont Eq mx my))
    by (symmetry; apply (Pos.compare_cont_antisym mx my Eq)).
  rewrite (Z.compare_antisym ex ey), Hm.
  destruct sx, sy; simpl; try reflexivity;
    destruct (ex ?= ey); simpl; reflexivity.
Qed.

Lemma F32_leb_not_ltb (x y : float32) :
  F32.leb x y = true -> F32.ltb y x = false.
Proof.
  unfold F32.leb, F32.ltb, SFleb, SFltb.
  rewrite (SFcompare_antisym x y).
  destruct (SFcompare x y) as [[]|]; simpl; congruence.
Qed.

(** ** The loss policy *)

(** C1: under LINEAR_SQUARE the transform is the identity, the first-order
    gradient is [p - y] and the second-order gradient is 1; under either
    logistic kind the transform is [1/(1+e^(-x))], the first-order gradient is
    [p - y] and the second-order gradient is [p*(1-p)], all in binary32
    arithmetic. *)
Theorem loss_policy_table (libm : LibM) (b : float32) (nf : Z) (rs : list Z)
  (x p y : float32) :
  let sigmoid :=
    F32.div F32.one (F32.add F32.one (expf libm (F32.neg x))) in
  (ModelParam.PredTransform libm (ModelParam.mk b kLinearSquare nf rs) x
     = Ok x
   /\ ModelParam.FirstOrderGradient (ModelParam.mk b kLinearSquare nf rs) p y
     = Ok (F32.sub p y)
   /\ ModelParam.SecondOrderGradient (ModelParam.mk b kLinearSquare nf rs) p y
     = Ok F32.one)
  /\ (ModelParam.PredTransform libm (ModelParam.mk b kLogisticNeglik nf rs) x
     = Ok sigmoid
   /\ ModelParam.FirstOrderGradient (ModelParam.mk b kLogisticNeglik nf rs) p y
     = Ok (F32.sub p y)
   /\ ModelParam.SecondOrderGradient (ModelParam.mk b kLogisticNeglik nf rs) p y
     = Ok (F32.mul p (F32.sub F32.one p)))
  /\ (ModelParam.PredTransform libm (ModelParam.mk b kLogisticClassify nf rs) x
     = Ok sigmoid
   /\ ModelParam.FirstOrderGradient (ModelParam.mk b kLogisticClassify nf rs) p y
     = Ok (F32.sub p y)
   /\ ModelParam.SecondOrderGradient (ModelParam.mk b kLogisticClassify nf rs)
        p y
     = Ok (F32.mul p (F32.sub F32.one p))).
Proof.
  repeat split.
Qed.

(** ** Calibration of the bias *)

Lemma AdjustBase_logistic (libm : LibM) (m : ModelParam.t) :
  ModelParam.loss_type m = kLogisticNeglik
  \/ ModelParam.loss_type m = kLogisticClassify ->
  ModelParam.AdjustBase libm m =
    (_ ← Assert (F32.ltb F32.zero (ModelParam.base_score m)
                 && F32.ltb (ModelParam.base_score m) F32.one)
                "sigmoid range constrain";
     Ok (ModelParam.set_base_score
           (F32.neg (logf libm
              (F32.sub (F32.div F32.one (ModelParam.base_score m)) F32.one)))
           m)).
Proof.
  unfold ModelParam.AdjustBase, kLogisticNeglik, kLogisticClassify.
  intros [-> | ->]; reflexivity.
Qed.

(** C3: one call of [AdjustBase] under a logistic loss with the bias [b]
    strictly between 0 and 1 stores [-logf(1/b - 1)]; for [b = 0.5], with a
    [logf] that maps 1 to 0, the stored bias is a zero; under LINEAR_SQUARE
    the record is unchanged whatever the bias. *)
Theorem AdjustBase_calibrates (libm : LibM) (m : ModelParam.t) :
  (ModelParam.loss_type m = kLogisticNeglik
   \/ ModelParam.loss_type m = kLogisticClassify ->
   F32.ltb F32.zero (ModelParam.base_score m) = true ->
   F32.ltb (ModelParam.base_score m) F32.one = true ->
   ModelParam.AdjustBase libm m =
     Ok (ModelParam.set_base_score
           (F32.neg (logf libm
              (F32.sub (F32.div F32.one (ModelParam.base_score m)) F32.one)))
           m))
  /\ (ModelParam.loss_type m = kLogisticNeglik
      \/ ModelParam.loss_type m = kLogisticClassify ->
      ModelParam.base_score m = F32.half ->
      logf libm F32.one = F32.zero ->
      exists m',
        ModelParam.AdjustBase libm m = Ok m'
        /\ ModelParam.base_score m' = S754_zero true
        /\ F32.eqb (ModelParam.base_score m') F32.zero = true
        /\ ModelParam.loss_type m' = ModelParam.loss_type m
        /\ ModelParam.num_feature m' = ModelParam.num_feature m
        /\ ModelParam.reserved m' = ModelParam.reserved m)
  /\ (ModelParam.loss_type m = kLinearSquare ->
      ModelParam.AdjustBase libm m = Ok m).
Proof.
  split; [|split].
  - intros Hl H0 H1. rewrite (AdjustBase_logistic libm m Hl), H0, H1.
    reflexivity.
  - intros Hl Hb Hlog. rewrite (AdjustBase_logistic libm m Hl), Hb.
    eexists; split; [reflexivity|].
    cbn [ModelParam.set_base_score ModelParam.base_score
         ModelParam.loss_type ModelParam.num_feature ModelParam.reserved].
    replace (F32.sub (F32.div F32.one F32.half) F32.one) with F32.one
      by (vm_compute; reflexivity).
    rewrite Hlog. repeat split.
  - intros Hl. unfold ModelParam.AdjustBase. rewrite Hl. reflexivity.
Qed.

Lemma AdjustBase_calibrates_witness :
  ModelParam.AdjustBase libm_special_values
    (ModelParam.mk F32.half kLogisticNeglik 0 (replicate 16 0))
  = Ok (ModelParam.mk (S754_zero true) kLogisticNeglik 0 (replicate 16 0))
  /\ (exists m',
        ModelParam.AdjustBase libm_special_values
          (ModelParam.mk F32.half kLogisticClassify 0 (replicate 16 0)) = Ok m'
        /\ ModelParam.base_score m' = S754_zero true)
  /\ ModelParam.AdjustBase libm_special_values ModelParam.init
     = Ok ModelParam.init.
Proof.
  split; [|split].
  - apply (AdjustBase_calibrates libm_special_values
             (ModelParam.mk F32.half kLogisticNeglik 0 (replicate 16 0)));
      [left|..]; reflexivity.
  - destruct (proj1 (proj2 (AdjustBase_calibrates libm_special_values
             (ModelParam.mk F32.half kLogisticClassify 0 (replicate 16 0)))))
      as (m' & H1 & H2 & _); [right|..]; try reflexivity.
    exists m'. split; assumption.
  - apply (AdjustBase_calibrates libm_special_values ModelParam.init).
    reflexivity.
Defined.

(** C7: under a logistic loss, a bias [b <= 0] or [b >= 1] makes
    [AdjustBase] end the process on its range assertion; no adjusted record
    is returned. *)
Theorem AdjustBase_out_of_range (libm : LibM) (m : ModelParam.t) :
  ModelParam.loss_type m = kLogisticNeglik
  \/ ModelParam.loss_type m = kLogisticClassify ->
  F32.leb (ModelParam.base_score m) F32.zero = true
  \/ F32.leb F32.one (ModelParam.base_score m) = true ->
  ModelParam.AdjustBase libm m = Fatal "sigmoid range constrain".
Proof.
  intros Hl Hb. rewrite (AdjustBase_logistic libm m Hl).
  destruct Hb as [Hb | Hb]; apply F32_leb_not_ltb in Hb; rewrite Hb.
  - reflexivity.
  - rewrite andb_false_r. reflexivity.
Qed.

Lemma AdjustBase_out_of_range_witness :
  ModelParam.AdjustBase libm_special_values
    (ModelParam.mk F32.zero kLogisticNeglik 0 (replicate 16 0))
  = Fatal "sigmoid range constrain"
  /\ ModelParam.AdjustBase libm_special_values
    (ModelParam.mk F32.one kLogisticClassify 0 (replicate 16 0))
  = Fatal "sigmoid range constrain".
Proof.
  split.
  - apply (AdjustBase_out_of_range libm_special_values
             (ModelParam.mk F32.zero kLogisticNeglik 0 (replicate 16 0)));
      [left|left]; reflexivity.
  - apply (AdjustBase_out_of_range libm_special_values
             (ModelParam.mk F32.one kLogisticClassify 0 (replicate 16 0)));
      [right|right]; reflexivity.
Defined.

(** ** Named parameters *)

Lemma to_int32_id (z : Z) : is_int32 z -> to_int32 z = z.
Proof.
  unfold is_int32, to_int32. intros Hz.
  rewrite Z.mod_small; lia.
Qed.

(** evaluates [digit_value] at a literal character *)
Ltac eval_digit :=
  match goal with
  | |- context [digit_value ?c] =>
      let v := eval vm_compute in (digit_value c) in
      change (digit_value c) with v; cbv iota
  end.

Lemma read_digits_acc (d : Decimal.uint) (acc : positive) :
  read_digits (Z.pos acc) (NilEmpty.string_of_uint d)
  = Z.pos (Pos.of_uint_acc d acc).
Proof.
  revert acc.
  induction d; intros acc; cbn [NilEmpty.string_of_uint Pos.of_uint_acc];
    [reflexivity | ..];
    cbn [read_digits]; eval_digit;
    rewrite <- IHd; f_equal; lia.
Qed.

Lemma read_digits_uint (d : Decimal.uint) :
  read_digits 0 (NilEmpty.string_of_uint d) = Z.of_N (Pos.of_uint d).
Proof.
  induction d; cbn [NilEmpty.string_of_uint Pos.of_uint];
    [reflexivity | ..];
    cbn [read_digits]; eval_digit;
    [exact IHd | ..];
    cbn [Z.of_N]; rewrite <- read_digits_acc; f_equal.
Qed.

Lemma strtol10_uint (d : Decimal.uint) :
  d <> Decimal.Nil ->
  strtol10 (NilZero.string_of_uint d) = Z.of_N (Pos.of_uint d).
Proof.
  intros Hd. rewrite <- read_digits_uint.
  destruct d; [congruence | ..]; reflexivity.
Qed.

Lemma strtol10_minus_uint (d : Decimal.uint) :
  d <> Decimal.Nil ->
  strtol10 (String "-" (NilZero.string_of_uint d)) = - Z.of_N (Pos.of_uint d).
Proof.
  intros Hd. rewrite <- read_digits_uint.
  destruct d; [congruence | ..]; reflexivity.
Qed.

(** [atoi] reads back what ["%d"] prints. *)
Lemma atoi_sprintf_d (v : Z) : is_int32 v -> atoi (sprintf_d v) = v.
Proof.
  intros Hv. unfold atoi. rewrite <- (to_int32_id v Hv) at 2. f_equal.
  unfold sprintf_d. destruct v as [|p|p]; cbn [Z.to_int NilZero.string_of_int].
  - reflexivity.
  - rewrite strtol10_uint, Unsigned.of_to by apply Unsigned.to_uint_nonnil.
    reflexivity.
  - change (String _ ?s) with (String "-" s).
    rewrite strtol10_minus_uint, Unsigned.of_to
      by apply Unsigned.to_uint_nonnil.
    reflexivity.
Qed.

Lemma streq_neq (a b : string) : b <> a -> streq a b = false.
Proof.
  intros Hne. unfold streq. apply String.eqb_neq. congruence.
Qed.

Lemma SetParam_num_feature (libm : LibM) (m : ModelParam.t) (val : string) :
  ModelParam.SetParam libm m "bst:num_feature" val
  = ModelParam.set_num_feature (atoi val) m.
Proof. reflexivity. Qed.

(** C2, as the code has it: [SetParam] under the name "bst:num_feature"
    assigns the parsed value to [num_feature], whatever the value stored
    before, and leaves the other fields alone; for an [int] [v] printed in
    decimal the stored value is [v]. *)
Theorem SetParam_num_feature_assigns (libm : LibM) (m : ModelParam.t) (v : Z) :
  is_int32 v ->
  ModelParam.SetParam libm m "bst:num_feature" (sprintf_d v)
  = ModelParam.mk (ModelParam.base_score m) (ModelParam.loss_type m) v
      (ModelParam.reserved m).
Proof.
  intros Hv. rewrite SetParam_num_feature, (atoi_sprintf_d v Hv). reflexivity.
Qed.

Lemma SetParam_num_feature_assigns_witness :
  ModelParam.SetParam libm_special_values
    (ModelParam.mk F32.half 0 10 (replicate 16 0)) "bst:num_feature"
    (sprintf_d 5)
  = ModelParam.mk F32.half 0 5 (replicate 16 0).
Proof.
  apply (SetParam_num_feature_assigns libm_special_values
           (ModelParam.mk F32.half 0 10 (replicate 16 0)) 5).
  unfold is_int32. lia.
Defined.

(** C2 as stated fails: with 10 stored, setting "bst:num_feature" to 5 leaves
    5, not the maximum 10. *)
Lemma SetParam_num_feature_lowers :
  ModelParam.num_feature
    (ModelParam.SetParam libm_special_values
       (ModelParam.mk F32.half 0 10 (replicate 16 0)) "bst:num_feature" "5")
  <> Z.max 10 5.
Proof. vm_compute. discriminate. Qed.

(** C9: under a name other than "base_score", "loss_type" and
    "bst:num_feature", [SetParam] returns the record it was given, with every
    field as before; it has no failing outcome. *)
Theorem SetParam_unrecognized (libm : LibM) (m : ModelParam.t)
  (name val : string) :
  name <> "base_score"%string ->
  name <> "loss_type"%string ->
  name <> "bst:num_feature"%string ->
  ModelParam.SetParam libm m name val = m.
Proof.
  intros H1 H2 H3. unfold ModelParam.SetParam.
  rewrite (streq_neq _ _ H1), (streq_neq _ _ H2), (streq_neq _ _ H3).
  reflexivity.
Qed.

Lemma SetParam_unrecognized_witness :
  ModelParam.SetParam libm_special_values ModelParam.init "bst:eta" "0.3"
  = ModelParam.init.
Proof.
  apply (SetParam_unrecognized libm_special_values ModelParam.init
           "bst:eta" "0.3"); discriminate.
Defined.

(** ** Vectors and loops *)

Lemma vec_get_in_range {A : Type} (v : list A) (j : Z) :
  0 <= j < Z.of_nat (List.length v) ->
  exists a, vec_get v j = Ok a /\ v !! Z.to_nat j = Some a.
Proof.
  intros Hj. unfold vec_get.
  replace ((0 <=? j) && (j <? Z.of_nat (List.length v))) with true
    by (symmetry; apply andb_true_iff; split; [apply Z.leb_le | apply Z.ltb_lt];
        lia).
  destruct (lookup_lt_is_Some_2 v (Z.to_nat j)) as [a Ha]; [lia|].
  exists a. rewrite Ha. split; reflexivity.
Qed.

Lemma vec_set_in_range {A : Type} (v : list A) (j : Z) (a : A) :
  0 <= j < Z.of_nat (List.length v) ->
  vec_set v j a = Ok (<[Z.to_nat j := a]> v).
Proof.
  intros Hj. unfold vec_set.
  replace ((0 <=? j) && (j <? Z.of_nat (List.length v))) with true
    by (symmetry; apply andb_true_iff; split; [apply Z.leb_le | apply Z.ltb_lt];
        lia).
  reflexivity.
Qed.

Lemma for_loop_safely {St : Type} (body : Z -> St -> result St)
  (P : Z -> St -> Prop) (count : nat) :
  forall (from : Z) (s : St),
    P from s ->
    (forall j s', from <= j < from + Z.of_nat count -> P j s' ->
                  safely (P (j + 1)) (body j s')) ->
    safely (P (from + Z.of_nat count)) (for_loop body from count s).
Proof.
  induction count as [|c IH]; intros from s HP Hstep; cbn [for_loop].
  - replace (from + Z.of_nat 0) with from by lia. exact HP.
  - pose proof (Hstep from s ltac:(lia) HP) as Hs.
    destruct (body from s) as [s1| |]; cbn in *; try exact Hs.
    replace (from + Z.of_nat (S c)) with (from + 1 + Z.of_nat c) by lia.
    apply IH; [exact Hs|].
    intros j s' Hj. apply Hstep. lia.
Qed.

Lemma for_loop_total {St : Type} (body : Z -> St -> result St)
  (P : Z -> St -> Prop) (count : nat) :
  forall (from : Z) (s : St),
    P from s ->
    (forall j s', from <= j < from + Z.of_nat count -> P j s' ->
                  exists s'', body j s' = Ok s'' /\ P (j + 1) s'') ->
    exists s', for_loop body from count s = Ok s'
               /\ P (from + Z.of_nat count) s'.
Proof.
  induction count as [|c IH]; intros from s HP Hstep; cbn [for_loop].
  - exists s. replace (from + Z.of_nat 0) with from by lia. split; [reflexivity|exact HP].
  - destruct (Hstep from s ltac:(lia) HP) as (s1 & Hb & HP1).
    rewrite Hb. cbn.
    replace (from + Z.of_nat (S c)) with (from + 1 + Z.of_nat c) by lia.
    apply IH; [exact HP1|].
    intros j s' Hj. apply Hstep. lia.
Qed.

Lemma to_uint32_le (z : Z) : 0 <= z -> 0 <= to_uint32 z <= z.
Proof.
  intros Hz. unfold to_uint32. split.
  - apply Z.mod_pos_bound. lia.
  - apply Z.mod_le; lia.
Qed.

Lemma to_uint32_id (z : Z) : 0 <= z < 2 ^ 32 -> to_uint32 z = z.
Proof. intros Hz. unfold to_uint32. apply Z.mod_small. exact Hz. Qed.

(** ** Gradients *)

Lemma FirstOrderGradient_defined (m : ModelParam.t) (p y : float32) :
  forall u, ModelParam.FirstOrderGradient m p y <> Undef u.
Proof.
  intros u. unfold ModelParam.FirstOrderGradient, Error.
  destruct (_ =? _); [discriminate|]. destruct (_ || _); discriminate.
Qed.

Lemma SecondOrderGradient_defined (m : ModelParam.t) (p y : float32) :
  forall u, ModelParam.SecondOrderGradient m p y <> Undef u.
Proof.
  intros u. unfold ModelParam.SecondOrderGradient, Error.
  destruct (_ =? _); [discriminate|]. destruct (_ || _); discriminate.
Qed.

Lemma GetGradient_step_safely (m : ModelParam.t) (preds labels : list float32)
  (j : Z) (g h : list float32) :
  0 <= j < Z.of_nat (List.length preds) ->
  (List.length preds <= List.length labels)%nat ->
  List.length g = List.length preds ->
  List.length h = List.length preds ->
  safely (fun s => List.length s.1 = List.length preds
                   /\ List.length s.2 = List.length preds)
    (BoostLearner.GetGradient_step m preds labels j (g, h)).
Proof.
  intros Hj Hlab Hg Hh. unfold BoostLearner.GetGradient_step.
  destruct (vec_get_in_range preds j Hj) as (p & Hp & _).
  destruct (vec_get_in_range labels j ltac:(lia)) as (y & Hy & _).
  rewrite Hp, Hy. cbn.
  pose proof (FirstOrderGradient_defined m p y) as H1.
  destruct (ModelParam.FirstOrderGradient m p y) as [d1|msg|u]; cbn;
    [|exact I|exact (H1 u eq_refl)].
  rewrite (vec_set_in_range g j d1) by lia. cbn.
  pose proof (SecondOrderGradient_defined m p y) as H2.
  destruct (ModelParam.SecondOrderGradient m p y) as [d2|msg|u]; cbn;
    [|exact I|exact (H2 u eq_refl)].
  rewrite (vec_set_in_range h j d2) by lia. cbn.
  rewrite !length_insert. split; assumption.
Qed.

Lemma GetGradient_safely (m : ModelParam.t)
  (preds labels grad hess : list float32) :
  (List.length preds <= List.length labels)%nat ->
  safely (fun s => List.length s.1 = List.length preds
                   /\ List.length s.2 = List.length preds)
    (BoostLearner.GetGradient m preds labels grad hess).
Proof.
  intros Hlab. unfold BoostLearner.GetGradient.
  pose proof (to_uint32_le (Z.of_nat (List.length preds)) ltac:(lia)) as Hn.
  set (ndata := to_uint32 (Z.of_nat (List.length preds))) in *.
  pose proof (for_loop_safely
    (BoostLearner.GetGradient_step m preds labels)
    (fun _ s => List.length s.1 = List.length preds
                /\ List.length s.2 = List.length preds)
    (Z.to_nat ndata) 0
    (resize (List.length preds) F32.zero grad,
     resize (List.length preds) F32.zero hess)) as Hloop.
  cbn beta in Hloop. apply Hloop.
  - cbn. rewrite !length_resize. split; reflexivity.
  - intros j [g h] Hj [Hg Hh].
    apply GetGradient_step_safely; cbn in *; try assumption. lia.
Qed.

Lemma FirstOrderGradient_valid (m : ModelParam.t) (p y : float32) :
  0 <= ModelParam.loss_type m <= 2 ->
  ModelParam.FirstOrderGradient m p y = Ok (F32.sub p y).
Proof.
  intros Hl. unfold ModelParam.FirstOrderGradient, kLinearSquare,
    kLogisticClassify, kLogisticNeglik.
  assert (ModelParam.loss_type m = 0 \/ ModelParam.loss_type m = 1
          \/ ModelParam.loss_type m = 2) as [-> | [-> | ->]] by lia;
    reflexivity.
Qed.

Lemma SecondOrderGradient_valid (m : ModelParam.t) (p y : float32) :
  0 <= ModelParam.loss_type m <= 2 ->
  ModelParam.SecondOrderGradient m p y =
    Ok (if ModelParam.loss_type m =? kLinearSquare then F32.one
        else F32.mul p (F32.sub F32.one p)).
Proof.
  intros Hl. unfold ModelParam.SecondOrderGradient, kLinearSquare,
    kLogisticClassify, kLogisticNeglik.
  assert (ModelParam.loss_type m = 0 \/ ModelParam.loss_type m = 1
          \/ ModelParam.loss_type m = 2) as [-> | [-> | ->]] by lia;
    reflexivity.
Qed.

(** With a known loss, [GetGradient] returns, and the rows below [ndata] hold
    the two derivatives of their prediction and label. *)
Lemma GetGradient_values (m : ModelParam.t)
  (preds labels grad hess : list float32) :
  0 <= ModelParam.loss_type m <= 2 ->
  (List.length preds <= List.length labels)%nat ->
  exists g h,
    BoostLearner.GetGradient m preds labels grad hess = Ok (g, h)
    /\ List.length g = List.length preds
    /\ List.length h = List.length preds
    /\ forall (i : nat) (p y : float32),
         Z.of_nat i < to_uint32 (Z.of_nat (List.length preds)) ->
         preds !! i = Some p -> labels !! i = Some y ->
         g !! i = Some (F32.sub p y)
         /\ h !! i = Some (if ModelParam.loss_type m =? kLinearSquare
                           then F32.one else F32.mul p (F32.sub F32.one p)).
Proof.
  intros Hl Hlab. unfold BoostLearner.GetGradient.
  pose proof (to_uint32_le (Z.of_nat (List.length preds)) ltac:(lia)) as Hn.
  set (ndata := to_uint32 (Z.of_nat (List.length preds))) in *.
  set (P := fun (j : Z) (s : list float32 * list float32) =>
    List.length s.1 = List.length preds
    /\ List.length s.2 = List.length preds
    /\ forall (i : nat) (p y : float32),
         Z.of_nat i < j -> preds !! i = Some p -> labels !! i = Some y ->
         s.1 !! i = Some (F32.sub p y)
         /\ s.2 !! i = Some (if ModelParam.loss_type m =? kLinearSquare
                             then F32.one else F32.mul p (F32.sub F32.one p))).
  destruct (for_loop_total (BoostLearner.GetGradient_step m preds labels) P
              (Z.to_nat ndata) 0
              (resize (List.length preds) F32.zero grad,
               resize (List.length preds) F32.zero hess))
    as ([g h] & Hrun & Hg & Hh & Hval).
  - unfold P; cbn. rewrite !length_resize. repeat split; lia.
  - intros j [g h] Hj (Hg & Hh & Hval). cbn in Hg, Hh, Hval.
    unfold BoostLearner.GetGradient_step.
    destruct (vec_get_in_range preds j ltac:(lia)) as (p & Hp & Hpj).
    destruct (vec_get_in_range labels j ltac:(lia)) as (y & Hy & Hyj).
    rewrite Hp, Hy. cbn.
    rewrite (FirstOrderGradient_valid m p y Hl). cbn.
    rewrite (vec_set_in_range g j _) by lia. cbn.
    rewrite (SecondOrderGradient_valid m p y Hl). cbn.
    rewrite (vec_set_in_range h j _) by lia. cbn.
    eexists; split; [reflexivity|].
    unfold P; cbn. rewrite !length_insert.
    split; [assumption | split; [assumption|]].
    intros i p' y' Hi Hp' Hy'.
    destruct (decide (i = Z.to_nat j)) as [-> | Hne].
    + rewrite !list_lookup_insert_eq by lia.
      rewrite Hpj in Hp'. rewrite Hyj in Hy'.
      injection Hp' as <-. injection Hy' as <-. split; reflexivity.
    + rewrite !list_lookup_insert_ne by congruence.
      apply (Hval i p' y'); [lia | assumption..].
  - exists g, h. cbn in Hg, Hh, Hval.
    replace (0 + Z.of_nat (Z.to_nat ndata)) with ndata in Hval by lia.
    split; [exact Hrun | split; [exact Hg | split; [exact Hh|]]].
    intros i p y Hi Hp Hy. apply (Hval i p y); assumption.
Qed.

(** C10: when there are at least as many labels as predictions,
    [GetGradient] never indexes outside [preds], [labels], [grad] or [hess];
    the two arrays it returns have the length of [preds]; and it does return
    them whenever the loss is one of the three known kinds. *)
Theorem GetGradient_in_bounds (m : ModelParam.t)
  (preds labels grad hess : list float32) :
  (List.length preds <= List.length labels)%nat ->
  (forall u, BoostLearner.GetGradient m preds labels grad hess <> Undef u)
  /\ (forall g h,
        BoostLearner.GetGradient m preds labels grad hess = Ok (g, h) ->
        List.length g = List.length preds /\ List.length h = List.length preds)
  /\ (0 <= ModelParam.loss_type m <= 2 ->
      exists g h, BoostLearner.GetGradient m preds labels grad hess = Ok (g, h)).
Proof.
  intros Hlab.
  pose proof (GetGradient_safely m preds labels grad hess Hlab) as Hs.
  split; [|split].
  - intros u Hu. rewrite Hu in Hs. exact Hs.
  - intros g h Hr. rewrite Hr in Hs. exact Hs.
  - intros Hl.
    destruct (GetGradient_values m preds labels grad hess Hl Hlab)
      as (g & h & Hr & _).
    exists g, h. exact Hr.
Qed.

Lemma GetGradient_in_bounds_witness :
  (forall u,
      BoostLearner.GetGradient ModelParam.init
        [F32.zero; F32.half] [F32.one; F32.zero; F32.one] [] [F32.one]
      <> Undef u)
  /\ exists g h,
      BoostLearner.GetGradient ModelParam.init
        [F32.zero; F32.half] [F32.one; F32.zero; F32.one] [] [F32.one]
      = Ok (g, h)
      /\ List.length g = 2%nat /\ List.length h = 2%nat.
Proof.
  destruct (GetGradient_in_bounds ModelParam.init
              [F32.zero; F32.half] [F32.one; F32.zero; F32.one] [] [F32.one])
    as (Hu & Hlen & Hok); [cbn; lia|].
  split; [exact Hu|].
  destruct Hok as (g & h & Hr); [cbn; lia|].
  exists g, h. split; [exact Hr|]. exact (Hlen g h Hr).
Defined.

(** ** Predictions *)

Lemma PredTransform_defined (libm : LibM) (m : ModelParam.t) (x : float32) :
  forall u, ModelParam.PredTransform libm m x <> Undef u.
Proof.
  intros u. unfold ModelParam.PredTransform, Error.
  destruct (_ =? _); [discriminate|]. destruct (_ || _); discriminate.
Qed.

Lemma PredTransform_valid (libm : LibM) (m : ModelParam.t) (x : float32) :
  0 <= ModelParam.loss_type m <= 2 ->
  ModelParam.PredTransform libm m x =
    Ok (if ModelParam.loss_type m =? kLinearSquare then x
        else F32.div F32.one (F32.add F32.one (expf libm (F32.neg x)))).
Proof.
  intros Hl. unfold ModelParam.PredTransform, kLinearSquare,
    kLogisticClassify, kLogisticNeglik.
  assert (ModelParam.loss_type m = 0 \/ ModelParam.loss_type m = 1
          \/ ModelParam.loss_type m = 2) as [-> | [-> | ->]] by lia;
    reflexivity.
Qed.

Lemma seqZ_snoc (j : Z) : 0 <= j -> seqZ 0 (j + 1) = seqZ 0 j ++ [j].
Proof.
  intros Hj. rewrite seqZ_app by lia. reflexivity.
Qed.

Section Recorded.
Context (libm : LibM) {FM G : Type} {fmat : FMatrix FM} (inner : GBTree FM G).

(** [PredictBuffer] stays inside [preds], sizes it to the row count and
    calls [Predict] once per row below [ndata], in order, with the slot
    [buffer_offset + j]. *)
Lemma PredictBuffer_safely (m : ModelParam.t) (g : G)
  (lg : list (Recorder.call FM)) (preds : list float32) (dat : DMatrix FM)
  (off : Z) :
  safely (fun s => List.length s.1 = N.to_nat (Size dat)
                   /\ s.2.2 = lg ++ Recorder.predict_calls (data dat) off
                                   (to_uint32 (Z.of_N (Size dat))))
    (BoostLearner.PredictBuffer (gbm := Recorder.recording inner) libm m
       (g, lg) preds dat off).
Proof.
  unfold BoostLearner.PredictBuffer.
  pose proof (to_uint32_le (Z.of_N (Size dat)) ltac:(lia)) as Hn.
  set (ndata := to_uint32 (Z.of_N (Size dat))) in *.
  pose proof (for_loop_safely
    (BoostLearner.PredictBuffer_step (gbm := Recorder.recording inner)
       libm m dat off)
    (fun j s => List.length s.1 = N.to_nat (Size dat)
                /\ s.2.2 = lg ++ Recorder.predict_calls (data dat) off j)
    (Z.to_nat ndata) 0
    (resize (N.to_nat (Size dat)) F32.zero preds, (g, lg))) as Hloop.
  cbn beta in Hloop.
  replace (0 + Z.of_nat (Z.to_nat ndata)) with ndata in Hloop by lia.
  apply Hloop.
  - cbn. rewrite length_resize, app_nil_r. split; reflexivity.
  - intros j [ps [g1 lg1]] Hj [Hlen Hlog]. cbn in Hlen, Hlog. subst lg1.
    unfold BoostLearner.PredictBuffer_step. cbn [gbm_Predict Recorder.recording fst snd].
    destruct (gbm_Predict g1 (data dat) j (to_uint32 (off + j))) as [raw g2].
    pose proof (PredTransform_defined libm m
                  (F32.add (ModelParam.base_score m) raw)) as Hd.
    destruct (ModelParam.PredTransform libm m _) as [p|msg|u]; cbn;
      [|exact I|exact (Hd u eq_refl)].
    rewrite (vec_set_in_range ps j p) by lia. cbn.
    rewrite length_insert. split; [exact Hlen|].
    unfold Recorder.predict_calls.
    rewrite seqZ_snoc, map_app, app_assoc by lia. reflexivity.
Qed.

(** With a known loss, [PredictBuffer] returns, and each row below [ndata]
    holds the transform of the bias plus an answer of [Predict] for that row
    and slot. *)
Lemma PredictBuffer_values (m : ModelParam.t) (g : G)
  (lg : list (Recorder.call FM)) (preds : list float32) (dat : DMatrix FM)
  (off : Z) :
  0 <= ModelParam.loss_type m <= 2 ->
  exists ps g',
    BoostLearner.PredictBuffer (gbm := Recorder.recording inner) libm m
      (g, lg) preds dat off
    = Ok (ps, (g', lg ++ Recorder.predict_calls (data dat) off
                          (to_uint32 (Z.of_N (Size dat)))))
    /\ List.length ps = N.to_nat (Size dat)
    /\ forall (i : nat) (a : float32),
         Z.of_nat i < to_uint32 (Z.of_N (Size dat)) ->
         ps !! i = Some a ->
         exists g0,
           ModelParam.PredTransform libm m
             (F32.add (ModelParam.base_score m)
                (gbm_Predict g0 (data dat) (Z.of_nat i)
                   (to_uint32 (off + Z.of_nat i))).1)
           = Ok a.
Proof.
  intros Hl. unfold BoostLearner.PredictBuffer.
  pose proof (to_uint32_le (Z.of_N (Size dat)) ltac:(lia)) as Hn.
  set (ndata := to_uint32 (Z.of_N (Size dat))) in *.
  set (P := fun (j : Z) (s : list float32 * (G * list (Recorder.call FM))) =>
    List.length s.1 = N.to_nat (Size dat)
    /\ s.2.2 = lg ++ Recorder.predict_calls (data dat) off j
    /\ forall (i : nat) (a : float32),
         Z.of_nat i < j -> s.1 !! i = Some a ->
         exists g0,
           ModelParam.PredTransform libm m
             (F32.add (ModelParam.base_score m)
                (gbm_Predict g0 (data dat) (Z.of_nat i)
                   (to_uint32 (off + Z.of_nat i))).1)
           = Ok a).
  destruct (for_loop_total
              (BoostLearner.PredictBuffer_step (gbm := Recorder.recording inner)
                 libm m dat off) P (Z.to_nat ndata) 0
              (resize (N.to_nat (Size dat)) F32.zero preds, (g, lg)))
    as ([ps [g' lg']] & Hrun & Hlen & Hlog & Hval).
  - unfold P; cbn. rewrite length_resize, app_nil_r.
    split; [reflexivity | split; [reflexivity|]]. intros i a Hi. lia.
  - intros j [ps [g1 lg1]] Hj (Hlen & Hlog & Hval). cbn in Hlen, Hlog, Hval.
    subst lg1. unfold BoostLearner.PredictBuffer_step.
    cbn [gbm_Predict Recorder.recording fst snd].
    destruct (gbm_Predict g1 (data dat) j (to_uint32 (off + j)))
      as [raw g2] eqn:Hraw.
    rewrite (PredTransform_valid libm m _ Hl). cbn.
    rewrite (vec_set_in_range ps j _) by lia. cbn.
    eexists; split; [reflexivity|]. unfold P; cbn.
    rewrite length_insert. split; [exact Hlen | split].
    + unfold Recorder.predict_calls.
      rewrite seqZ_snoc, map_app, app_assoc by lia. reflexivity.
    + intros i a Hi Ha.
      destruct (decide (i = Z.to_nat j)) as [-> | Hne].
      * rewrite list_lookup_insert_eq in Ha by lia. injection Ha as <-.
        exists g1. rewrite Z2Nat.id, Hraw by lia.
        apply PredTransform_valid. exact Hl.
      * rewrite list_lookup_insert_ne in Ha by congruence.
        apply (Hval i a); [lia | exact Ha].
  - cbn in Hlen, Hlog, Hval. subst lg'.
    replace (0 + Z.of_nat (Z.to_nat ndata)) with ndata in * by lia.
    exists ps, g'. split; [exact Hrun | split; [exact Hlen | exact Hval]].
Qed.
End Recorded.

(** ** One round *)

Lemma boosted_app {FM : Type} (l1 l2 : list (Recorder.call FM)) :
  Recorder.boosted (l1 ++ l2) = Recorder.boosted l1 ++ Recorder.boosted l2.
Proof. apply flat_map_app. Qed.

Lemma boosted_predict_calls {FM : Type} (fm : FM) (off n : Z) :
  Recorder.boosted (Recorder.predict_calls fm off n) = [].
Proof.
  unfold Recorder.boosted, Recorder.predict_calls.
  induction (seqZ 0 n) as [|j js IH]; [reflexivity | exact IH].
Qed.

Lemma list4_eq {A : Type} (l : list A) (a b c d : A) :
  List.length l = 4%nat ->
  l !! 0%nat = Some a -> l !! 1%nat = Some b ->
  l !! 2%nat = Some c -> l !! 3%nat = Some d ->
  l = [a; b; c; d].
Proof.
  intros Hlen H0 H1 H2 H3.
  destruct l as [|x0 [|x1 [|x2 [|x3 [|x4 l]]]]]; try discriminate Hlen.
  cbn in H0, H1, H2, H3. congruence.
Qed.

(** C8: under LINEAR_SQUARE with a zero bias, a training set of four rows
    labelled [1,0,1,0] and an ensemble whose every raw prediction is 0, one
    call of [UpdateOneIter] returns with predictions [0,0,0,0], first-order
    gradients [-1,0,-1,0] and second-order gradients [1,1,1,1], and the
    ensemble has received exactly one more [DoBoost] call, with these two
    arrays, the training matrix and an empty root index. *)
Theorem UpdateOneIter_linear_square_round (libm : LibM) {FM G : Type}
  (inner : GBTree FM G) (L : BoostLearner.t FM (G * list (Recorder.call FM)))
  (fm : FM) (iter : Z) :
  (forall g fm' j slot, (gbm_Predict g fm' j slot).1 = F32.zero) ->
  ModelParam.loss_type (BoostLearner.mparam L) = kLinearSquare ->
  ModelParam.base_score (BoostLearner.mparam L) = F32.zero ->
  BoostLearner.train_ L
  = Some (mkDMatrix fm [F32.one; F32.zero; F32.one; F32.zero] 4) ->
  exists L',
    BoostLearner.UpdateOneIter (gbm := Recorder.recording inner) libm L iter
    = Ok L'
    /\ BoostLearner.preds_ L' = [F32.zero; F32.zero; F32.zero; F32.zero]
    /\ BoostLearner.grad_ L'
       = [F32.neg F32.one; F32.zero; F32.neg F32.one; F32.zero]
    /\ BoostLearner.hess_ L' = [F32.one; F32.one; F32.one; F32.one]
    /\ Recorder.boosted (Recorder.log L')
       = Recorder.boosted (Recorder.log L)
         ++ [(BoostLearner.grad_ L', BoostLearner.hess_ L', fm, [])].
Proof.
  intros Hzero Hloss Hbase Htrain.
  assert (Hl : 0 <= ModelParam.loss_type (BoostLearner.mparam L) <= 2)
    by (rewrite Hloss; unfold kLinearSquare; lia).
  unfold BoostLearner.UpdateOneIter, Recorder.log. rewrite Htrain.
  destruct (BoostLearner.base_gbm L) as [g lg] eqn:Hg.
  destruct (PredictBuffer_values libm inner (BoostLearner.mparam L) g lg
              (BoostLearner.preds_ L)
              (mkDMatrix fm [F32.one; F32.zero; F32.one; F32.zero] 4) 0 Hl)
    as (ps & g' & Hrun & Hlen & Hval).
  rewrite Hrun. cbn [mbind result_bind].
  change (to_uint32 (Z.of_N (Size (mkDMatrix fm
            [F32.one; F32.zero; F32.one; F32.zero] 4)))) with 4 in Hval.
  assert (Hps : ps = [F32.zero; F32.zero; F32.zero; F32.zero]).
  { assert (Hrow : forall (i : nat) (a : float32),
               (i < 4)%nat -> ps !! i = Some a -> a = F32.zero).
    { intros i a Hi Ha.
      destruct (Hval i a) as (g0 & Hp); [lia | exact Ha |].
      rewrite Hzero, Hbase, (PredTransform_valid libm _ _ Hl), Hloss in Hp.
      cbn in Hp. congruence. }
    cbn in Hlen.
    destruct ps as [|a0 [|a1 [|a2 [|a3 [|a4 ps]]]]]; try discriminate Hlen.
    rewrite (Hrow 0%nat a0), (Hrow 1%nat a1), (Hrow 2%nat a2), (Hrow 3%nat a3)
      by (lia || reflexivity).
    reflexivity. }
  subst ps. cbn [labels data].
  destruct (GetGradient_values (BoostLearner.mparam L)
              [F32.zero; F32.zero; F32.zero; F32.zero]
              [F32.one; F32.zero; F32.one; F32.zero]
              (BoostLearner.grad_ L) (BoostLearner.hess_ L) Hl)
    as (gr & hs & Hgrad & Hlg & Hlh & Hv); [cbn; lia|].
  rewrite Hgrad. cbn [mbind result_bind].
  rewrite Hloss in Hv. cbn in Hlg, Hlh.
  change (to_uint32 (Z.of_nat (List.length
            [F32.zero; F32.zero; F32.zero; F32.zero]))) with 4 in Hv.
  assert (Hgr : gr = [F32.neg F32.one; F32.zero; F32.neg F32.one; F32.zero]).
  { apply list4_eq; [exact Hlg | ..].
    - apply (Hv 0%nat F32.zero F32.one); [lia | reflexivity..].
    - apply (Hv 1%nat F32.zero F32.zero); [lia | reflexivity..].
    - apply (Hv 2%nat F32.zero F32.one); [lia | reflexivity..].
    - apply (Hv 3%nat F32.zero F32.zero); [lia | reflexivity..]. }
  assert (Hhs : hs = [F32.one; F32.one; F32.one; F32.one]).
  { apply list4_eq; [exact Hlh | ..].
    - apply (Hv 0%nat F32.zero F32.one); [lia | reflexivity..].
    - apply (Hv 1%nat F32.zero F32.zero); [lia | reflexivity..].
    - apply (Hv 2%nat F32.zero F32.one); [lia | reflexivity..].
    - apply (Hv 3%nat F32.zero F32.zero); [lia | reflexivity..]. }
  subst gr hs.
  eexists. split; [reflexivity|].
  cbn [BoostLearner.preds_ BoostLearner.grad_ BoostLearner.hess_
       BoostLearner.base_gbm gbm_DoBoost Recorder.recording fst snd].
  repeat split.
  rewrite !boosted_app, boosted_predict_calls, app_nil_r. reflexivity.
Qed.

Lemma UpdateOneIter_linear_square_round_witness :
  exists L',
    BoostLearner.UpdateOneIter
      (gbm := Recorder.recording (Constant.ensemble N F32.zero))
      libm_special_values linear_square_learner 0
    = Ok L'
    /\ BoostLearner.preds_ L' = [F32.zero; F32.zero; F32.zero; F32.zero]
    /\ Recorder.boosted (Recorder.log L')
       = [([F32.neg F32.one; F32.zero; F32.neg F32.one; F32.zero],
           [F32.one; F32.one; F32.one; F32.one], 3%N, [])].
Proof.
  destruct (UpdateOneIter_linear_square_round libm_special_values
              (Constant.ensemble N F32.zero) linear_square_learner 3%N 0)
    as (L' & Hrun & Hp & Hg & Hh & Hb); try reflexivity.
  exists L'. split; [exact Hrun | split; [exact Hp|]].
  rewrite Hb, Hg, Hh. reflexivity.
Defined.

(** ** Binding the data *)

Lemma params_named_app {FM : Type} (name : string)
  (l1 l2 : list (Recorder.call FM)) :
  Recorder.params_named name (l1 ++ l2)
  = Recorder.params_named name l1 ++ Recorder.params_named name l2.
Proof. apply flat_map_app. Qed.

Lemma predicted_app {FM : Type} (l1 l2 : list (Recorder.call FM)) :
  Recorder.predicted (l1 ++ l2)
  = Recorder.predicted l1 ++ Recorder.predicted l2.
Proof. apply flat_map_app. Qed.


Lemma predicted_calls_at {FM : Type} (fm : FM) (off n : Z) :
  Recorder.predicted (Recorder.predict_calls fm off n)
  = map (fun j => (j, to_uint32 (off + j))) (seqZ 0 n).
Proof.
  unfold Recorder.predicted, Recorder.predict_calls.
  induction (seqZ 0 n) as [|j js IH]; [reflexivity|].
  cbn [map flat_map Recorder.predicted_by app]. rewrite IH. reflexivity.
Qed.

Lemma map_seqZ_ext {A : Type} (f h : Z -> A) (n : Z) :
  (forall j, 0 <= j < n -> f j = h j) ->
  map f (seqZ 0 n) = map h (seqZ 0 n).
Proof.
  intros Hfh.
  assert (Hall : Forall (fun j => 0 <= j < n) (seqZ 0 n)).
  { apply Forall_forall. intros j Hj. apply elem_of_seqZ in Hj. lia. }
  induction Hall as [|j js Hj _ IH]; [reflexivity|].
  cbn [map]. rewrite IH, (Hfh j Hj). reflexivity.
Qed.


Section Binding.
Context (libm : LibM) {FM G : Type} {fmat : FMatrix FM} (inner : GBTree FM G).

Lemma SetData_log (L : BoostLearner.t FM (G * list (Recorder.call FM)))
  (train : DMatrix FM) (evals : list (DMatrix FM)) (evname : list string) :
  Recorder.params_named "num_pbuffer"
    (Recorder.log
       (BoostLearner.SetData (gbm := Recorder.recording inner) L train evals
          evname))
  = Recorder.params_named "num_pbuffer" (Recorder.log L)
    ++ [sprintf_u (BoostLearner.SetData_bounds train evals).1].
Proof.
  unfold BoostLearner.SetData, Recorder.log.
  destruct (BoostLearner.SetData_bounds train evals) as [buffer_size nf].
  destruct (nf >? _);
    cbn [BoostLearner.base_gbm gbm_SetParam Recorder.recording fst snd];
    rewrite !params_named_app, ?app_nil_r; reflexivity.
Qed.

Lemma SetData_train (L : BoostLearner.t FM (G * list (Recorder.call FM)))
  (train : DMatrix FM) (evals : list (DMatrix FM)) (evname : list string) :
  BoostLearner.train_
    (BoostLearner.SetData (gbm := Recorder.recording inner) L train evals
       evname) = Some train
  /\ ModelParam.loss_type
       (BoostLearner.mparam
          (BoostLearner.SetData (gbm := Recorder.recording inner) L train evals
             evname))
     = ModelParam.loss_type (BoostLearner.mparam L).
Proof.
  unfold BoostLearner.SetData.
  destruct (BoostLearner.SetData_bounds train evals) as [buffer_size nf].
  destruct (nf >? _); split; reflexivity.
Qed.




End Binding.




(** ** The object representation of a float *)

Lemma digits2_pos_bounds (m : positive) :
  2 ^ (Z.pos (digits2_pos m) - 1) <= Z.pos m < 2 ^ Z.pos (digits2_pos m).
Proof.
  induction m as [p IH | p IH |]; cbn [digits2_pos].
  - rewrite Pos2Z.inj_succ.
    replace (Z.succ (Z.pos (digits2_pos p)) - 1)
      with (Z.succ (Z.pos (digits2_pos p) - 1)) by lia.
    rewrite !Z.pow_succ_r by lia. lia.
  - rewrite Pos2Z.inj_succ.
    replace (Z.succ (Z.pos (digits2_pos p)) - 1)
      with (Z.succ (Z.pos (digits2_pos p) - 1)) by lia.
    rewrite !Z.pow_succ_r by lia. lia.
  - cbn. lia.
Qed.

Lemma valid_finite_cases (s : bool) (m : positive) (e : Z) :
  F32.valid (S754_finite s m e) = true ->
  (Z.pos m < 2 ^ 23 /\ e = -149)
  \/ (2 ^ 23 <= Z.pos m < 2 ^ 24 /\ -149 <= e <= 104).
Proof.
  unfold F32.valid, valid_binary, bounded, canonical_mantissa, fexp, emin,
    F32.prec, F32.emax.
  intros H. apply andb_true_iff in H as [Hc He].
  apply Z.eqb_eq in Hc. apply Z.leb_le in He.
  pose proof (digits2_pos_bounds m) as Hd.
  set (d := Z.pos (digits2_pos m)) in *.
  assert (Hd1 : 1 <= d) by (unfold d; lia).
  destruct (Z.le_gt_cases 24 d) as [Hge | Hlt].
  - right. assert (d = 24) by lia.
    replace d with 24 in Hd by lia. cbn in Hd. lia.
  - left. assert (2 ^ d <= 2 ^ 23) by (apply Z.pow_le_mono_r; lia). lia.
Qed.

Lemma bit_fields (s : bool) (E F : Z) :
  0 <= E < 256 -> 0 <= F < 2 ^ 23 ->
  Z.testbit (F32.sign_bit s + E * 2 ^ 23 + F) 31 = s
  /\ Z.land (Z.shiftr (F32.sign_bit s + E * 2 ^ 23 + F) 23) 255 = E
  /\ Z.land (F32.sign_bit s + E * 2 ^ 23 + F) (2 ^ 23 - 1) = F.
Proof.
  intros HE HF.
  set (b := if s then 1 else 0).
  assert (Hs : F32.sign_bit s = b * 2 ^ 31) by (destruct s; reflexivity).
  assert (Hb : 0 <= b <= 1) by (destruct s; cbn; lia).
  rewrite Hs. split; [|split].
  - rewrite Z.testbit_odd, Z.shiftr_div_pow2 by lia.
    rewrite <- (Z.div_unique_pos (b * 2 ^ 31 + E * 2 ^ 23 + F) (2 ^ 31) b
                  (E * 2 ^ 23 + F)) by lia.
    destruct s; reflexivity.
  - rewrite Z.shiftr_div_pow2 by lia.
    rewrite <- (Z.div_unique_pos (b * 2 ^ 31 + E * 2 ^ 23 + F) (2 ^ 23)
                  (b * 256 + E) F) by lia.
    change 255 with (Z.ones 8). rewrite Z.land_ones by lia.
    symmetry. apply (Z.mod_unique_pos _ _ b). all: lia.
  - change (2 ^ 23 - 1) with (Z.ones 23). rewrite Z.land_ones by lia.
    symmetry. apply (Z.mod_unique_pos _ _ (b * 256 + E)). all: lia.
Qed.

Lemma F32_to_bits_range (f : float32) :
  F32.valid f = true -> 0 <= F32.to_bits f < 2 ^ 32.
Proof.
  intros Hv. destruct f as [s|s| |s m e]; cbn [F32.to_bits].
  - destruct s; cbn; lia.
  - destruct s; cbn; lia.
  - cbn; lia.
  - assert (Hs : 0 <= F32.sign_bit s <= 2 ^ 31) by (destruct s; cbn; lia).
    destruct (valid_finite_cases s m e Hv) as [[Hm He] | [Hm He]].
    + replace (Z.pos m <? 2 ^ 23) with true by (symmetry; apply Z.ltb_lt; lia).
      lia.
    + replace (Z.pos m <? 2 ^ 23) with false
        by (symmetry; apply Z.ltb_ge; lia).
      lia.
Qed.

(** A valid float is read back from its bits. *)
Lemma F32_of_to_bits (f : float32) :
  F32.valid f = true -> F32.of_bits (F32.to_bits f) = f.
Proof.
  intros Hv. destruct f as [s|s| |s m e]; cbn [F32.to_bits].
  - destruct s; reflexivity.
  - destruct s; reflexivity.
  - reflexivity.
  - destruct (valid_finite_cases s m e Hv) as [[Hm He] | [Hm He]].
    + replace (Z.pos m <? 2 ^ 23) with true by (symmetry; apply Z.ltb_lt; lia).
      destruct (bit_fields s 0 (Z.pos m)) as (H1 & H2 & H3); [lia | lia |].
      replace (F32.sign_bit s + Z.pos m)
        with (F32.sign_bit s + 0 * 2 ^ 23 + Z.pos m) by lia.
      unfold F32.of_bits. rewrite H1, H2, H3. cbn. subst e. reflexivity.
    + replace (Z.pos m <? 2 ^ 23) with false
        by (symmetry; apply Z.ltb_ge; lia).
      destruct (bit_fields s (e + 150) (Z.pos m - 2 ^ 23))
        as (H1 & H2 & H3); [lia | lia |].
      replace (F32.sign_bit s + ((e + 150) * 2 ^ 23 + (Z.pos m - 2 ^ 23)))
        with (F32.sign_bit s + (e + 150) * 2 ^ 23 + (Z.pos m - 2 ^ 23))
        by lia.
      unfold F32.of_bits. rewrite H1, H2, H3.
      replace (e + 150 =? 0) with false by (symmetry; apply Z.eqb_neq; lia).
      replace (e + 150 =? 255) with false by (symmetry; apply Z.eqb_neq; lia).
      replace (Z.pos m - 2 ^ 23 + 2 ^ 23) with (Z.pos m) by lia.
      replace (e + 150 - 150) with e by lia. reflexivity.
Qed.

(** ** The persisted record *)

Lemma le_int32 (z : Z) :
  is_int32 z -> to_int32 (le_combine (le_split 4 z)) = z.
Proof.
  unfold is_int32, to_int32. intros Hz. rewrite le_combine_split.
  change (2 ^ (Z.of_nat 4 * 8)) with (2 ^ 32).
  rewrite Zplus_mod_idemp_l. rewrite Z.mod_small; lia.
Qed.

Lemma int_at_app (pre rest : list byte) (off : nat) (z : Z) :
  List.length pre = off -> is_int32 z ->
  int_at off (pre ++ le_split 4 z ++ rest) = z.
Proof.
  intros Hpre Hz. unfold int_at.
  rewrite drop_app_length' by (symmetry; exact Hpre).
  rewrite take_app_length' by (symmetry; apply length_le_split).
  apply le_int32. exact Hz.
Qed.

Lemma reserved_at (rs : list Z) :
  forall (pre rest : list byte) (off : nat),
    List.length pre = off -> Forall is_int32 rs ->
    map (fun i => int_at (off + 4 * i) (pre ++ flat_map (le_split 4) rs ++ rest))
      (seq 0 (List.length rs)) = rs.
Proof.
  induction rs as [|r rs IH]; intros pre rest off Hpre Hrs; [reflexivity|].
  apply Forall_cons in Hrs as [Hr Hrs].
  cbn [List.length seq map flat_map]. rewrite <- seq_shift, map_map.
  f_equal.
  - rewrite Nat.mul_0_r, Nat.add_0_r, <- app_assoc.
    apply int_at_app; assumption.
  - rewrite <- (IH (pre ++ le_split 4 r) rest (off + 4)%nat) at 2;
      [|rewrite length_app, length_le_split; lia | exact Hrs].
    apply map_ext. intros i. rewrite <- !app_assoc. f_equal. lia.
Qed.

Lemma length_flat_le_split (rs : list Z) :
  List.length (flat_map (le_split 4) rs) = (4 * List.length rs)%nat.
Proof.
  induction rs as [|r rs IH]; [reflexivity|].
  cbn [flat_map]. rewrite length_app, length_le_split, IH. cbn [List.length]. lia.
Qed.

Lemma length_ModelParam_to_bytes (m : ModelParam.t) :
  List.length (ModelParam.reserved m) = 16%nat ->
  List.length (ModelParam_to_bytes m) = sizeof_ModelParam.
Proof.
  intros Hr. unfold ModelParam_to_bytes, sizeof_ModelParam.
  rewrite !length_app, !length_le_split, length_flat_le_split, Hr.
  reflexivity.
Qed.

(** A valid record is read back from its bytes, whatever follows them. *)
Lemma ModelParam_of_to_bytes (m : ModelParam.t) (extra : list byte) :
  ModelParam_valid m ->
  ModelParam_of_bytes (ModelParam_to_bytes m ++ extra) = m.
Proof.
  intros (Hb & Hl & Hn & Hlen & Hrs).
  destruct m as [b lt nf rs]. cbn in Hb, Hl, Hn, Hlen, Hrs.
  unfold ModelParam_of_bytes, ModelParam_to_bytes.
  cbn [ModelParam.base_score ModelParam.loss_type ModelParam.num_feature
       ModelParam.reserved].
  rewrite <- !app_assoc. f_equal.
  - rewrite take_app_length' by (symmetry; apply length_le_split).
    rewrite le_combine_split.
    change (2 ^ (Z.of_nat 4 * 8)) with (2 ^ 32).
    rewrite Z.mod_small by (apply F32_to_bits_range; exact Hb).
    apply F32_of_to_bits. exact Hb.
  - apply int_at_app; [apply length_le_split | exact Hl].
  - rewrite (app_assoc (le_split 4 (F32.to_bits b))).
    apply int_at_app; [|exact Hn].
    rewrite length_app, !length_le_split. reflexivity.
  - rewrite (app_assoc (le_split 4 lt)), (app_assoc (le_split 4 (F32.to_bits b))).
    rewrite <- Hlen at 1.
    apply (reserved_at rs _ extra 12); [|exact Hrs].
    rewrite !length_app, !length_le_split. reflexivity.
Qed.

Lemma take_drop_app_prefix {A : Type} (a b : list A) (off n : nat) :
  (off + n <= List.length a)%nat ->
  take n (drop off (a ++ b)) = take n (drop off a).
Proof.
  intros Hlen. rewrite drop_app_le by lia.
  apply take_app_le. rewrite length_drop. lia.
Qed.

(** Only the first 76 bytes are decoded. *)
Lemma ModelParam_of_bytes_prefix (a b : list byte) :
  List.length a = sizeof_ModelParam ->
  ModelParam_of_bytes (a ++ b) = ModelParam_of_bytes a.
Proof.
  unfold sizeof_ModelParam. intros Hlen.
  unfold ModelParam_of_bytes, int_at.
  rewrite (take_app_le a b 4) by lia.
  rewrite !(take_drop_app_prefix a b) by lia.
  f_equal. apply List.map_ext_in. intros i Hi. apply List.in_seq in Hi.
  rewrite (take_drop_app_prefix a b) by lia. reflexivity.
Qed.

(** ** Saving and loading *)

Section Persistence.
Context {FM G : Type} {gbm : GBTree FM G}.

(** What [LoadModel] does once the ensemble has consumed its segment: it
    fails unless 76 bytes are left, and then decodes the record from them. *)
Lemma LoadModel_outcome (L : BoostLearner.t FM G) (fi rest : IStream) (g' : G) :
  gbm_LoadModel (BoostLearner.base_gbm L) fi = Ok (g', rest) ->
  BoostLearner.LoadModel L fi =
    if (sizeof_ModelParam <=? List.length rest)%nat then
      Ok ({| BoostLearner.silent := BoostLearner.silent L;
             BoostLearner.base_gbm := g';
             BoostLearner.train_ := BoostLearner.train_ L;
             BoostLearner.evals_ := BoostLearner.evals_ L;
             BoostLearner.evname_ := BoostLearner.evname_ L;
             BoostLearner.mparam :=
               ModelParam_of_bytes
                 (take sizeof_ModelParam rest
                  ++ drop sizeof_ModelParam
                       (ModelParam_to_bytes (BoostLearner.mparam L)));
             BoostLearner.grad_ := BoostLearner.grad_ L;
             BoostLearner.hess_ := BoostLearner.hess_ L;
             BoostLearner.preds_ := BoostLearner.preds_ L;
             BoostLearner.eval_preds_ := BoostLearner.eval_preds_ L;
             BoostLearner.console := BoostLearner.console L |},
          drop sizeof_ModelParam rest)
    else Fatal "".
Proof.
  intros Hg. unfold BoostLearner.LoadModel, Read. rewrite Hg.
  cbn [mbind result_bind]. rewrite length_take.
  destruct (Nat.leb_spec sizeof_ModelParam (List.length rest)) as [Hle | Hlt].
  - rewrite Nat.min_l by exact Hle. rewrite Nat.eqb_refl. reflexivity.
  - rewrite Nat.min_r by lia.
    replace (Nat.eqb (List.length rest) sizeof_ModelParam) with false
      by (symmetry; apply Nat.eqb_neq; lia).
    reflexivity.
Qed.

(** With nothing left for the record, the load ends the process. *)
Lemma LoadModel_empty_read (L : BoostLearner.t FM G) (fi : IStream) (g' : G) :
  gbm_LoadModel (BoostLearner.base_gbm L) fi = Ok (g', []) ->
  BoostLearner.LoadModel L fi = Fatal "".
Proof.
  intros Hg. rewrite (LoadModel_outcome L fi [] g' Hg). reflexivity.
Qed.

(** C4: once the ensemble has consumed its segment, a stream that holds fewer
    than the 76 bytes of the record, none or some, makes [LoadModel] end the
    process on its assertion; [LoadModel] returns only when 76 bytes were
    there, and then with the record decoded from these bytes, nothing of the
    record held before, and with the stream advanced past them. *)
Theorem LoadModel_short_record_fatal (L : BoostLearner.t FM G)
  (fi rest : IStream) (g' : G) :
  gbm_LoadModel (BoostLearner.base_gbm L) fi = Ok (g', rest) ->
  ((List.length rest < sizeof_ModelParam)%nat ->
   BoostLearner.LoadModel L fi = Fatal "")
  /\ (forall L' fi',
        BoostLearner.LoadModel L fi = Ok (L', fi') ->
        (sizeof_ModelParam <= List.length rest)%nat
        /\ BoostLearner.mparam L'
           = ModelParam_of_bytes (take sizeof_ModelParam rest)
        /\ fi' = drop sizeof_ModelParam rest)
  /\ ((sizeof_ModelParam <= List.length rest)%nat ->
      exists L',
        BoostLearner.LoadModel L fi = Ok (L', drop sizeof_ModelParam rest)).
Proof.
  intros Hg. rewrite (LoadModel_outcome L fi rest g' Hg).
  destruct (Nat.leb_spec sizeof_ModelParam (List.length rest)) as [Hle | Hlt].
  - split; [intros Hlt; lia | split].
    + intros L' fi' [= <- <-]. split; [exact Hle|].
      cbn [BoostLearner.mparam]. split; [|reflexivity].
      apply ModelParam_of_bytes_prefix. rewrite length_take. lia.
    + intros _. eexists. reflexivity.
  - split; [reflexivity | split].
    + intros L' fi' Hok. discriminate Hok.
    + intros Hle. lia.
Qed.

(** C6: a record whose fields fit their C types (a valid binary32 bias, [int]
    loss, feature count and reserved words, sixteen of them) is read back
    unchanged from its 76 bytes, and a learner that loads what another has
    saved, over an ensemble that reads back its own segment, ends with the
    same record and an exhausted stream. *)
Theorem SaveModel_LoadModel_roundtrip (saved fresh : BoostLearner.t FM G)
  (g' : G) :
  ModelParam_valid (BoostLearner.mparam saved) ->
  (forall rest,
      gbm_LoadModel (BoostLearner.base_gbm fresh)
        (gbm_SaveModel (BoostLearner.base_gbm saved) ++ rest)
      = Ok (g', rest)) ->
  ModelParam_of_bytes (ModelParam_to_bytes (BoostLearner.mparam saved))
  = BoostLearner.mparam saved
  /\ exists L',
      BoostLearner.LoadModel fresh (BoostLearner.SaveModel saved [])
      = Ok (L', [])
      /\ BoostLearner.mparam L' = BoostLearner.mparam saved
      /\ BoostLearner.base_gbm L' = g'.
Proof.
  intros Hv Hg.
  pose proof (length_ModelParam_to_bytes (BoostLearner.mparam saved)
                (proj1 (proj2 (proj2 (proj2 Hv))))) as Hlen.
  split.
  - rewrite <- (app_nil_r (ModelParam_to_bytes _)).
    apply ModelParam_of_to_bytes. exact Hv.
  - unfold BoostLearner.SaveModel, Write. rewrite app_nil_l.
    rewrite (take_ge (ModelParam_to_bytes _)) by lia.
    rewrite (LoadModel_outcome fresh _ _ g' (Hg _)).
    rewrite Hlen, Nat.leb_refl.
    rewrite (take_ge (ModelParam_to_bytes (BoostLearner.mparam saved))),
      (drop_ge (ModelParam_to_bytes (BoostLearner.mparam saved))) by lia.
    eexists. split; [reflexivity|].
    cbn [BoostLearner.mparam BoostLearner.base_gbm].
    split; [|reflexivity].
    apply ModelParam_of_to_bytes. exact Hv.
Qed.
End Persistence.

Lemma SaveModel_LoadModel_roundtrip_witness :
  exists L',
    BoostLearner.LoadModel (gbm := Constant.ensemble N F32.zero)
      (BoostLearner.init tt)
      (BoostLearner.SaveModel (gbm := Constant.ensemble N F32.zero)
         logistic_learner [])
    = Ok (L', [])
    /\ BoostLearner.mparam L'
       = ModelParam.mk F32.half kLogisticClassify 127 (replicate 16 0).
Proof.
  destruct (SaveModel_LoadModel_roundtrip (gbm := Constant.ensemble N F32.zero)
              logistic_learner (BoostLearner.init tt) tt)
    as (_ & L' & Hload & Hm & _).
  - unfold ModelParam_valid, is_int32, logistic_learner, kLogisticClassify.
    cbn [BoostLearner.mparam ModelParam.base_score ModelParam.loss_type
         ModelParam.num_feature ModelParam.reserved].
    split; [reflexivity|]. split; [lia|]. split; [lia|].
    split; [reflexivity|].
    apply Forall_forall. intros z Hz.
    apply elem_of_replicate in Hz as [-> _]. lia.
  - intros rest. reflexivity.
  - exists L'. split; [exact Hload | exact Hm].
Defined.

Lemma LoadModel_short_record_fatal_witness :
  BoostLearner.LoadModel (gbm := Constant.ensemble N F32.zero)
    logistic_learner
    (Constant.segment ++ [Byte.x00; Byte.x00; Byte.x80; Byte.x3f; Byte.x01])
  = Fatal ""
  /\ BoostLearner.LoadModel (gbm := Constant.ensemble N F32.zero)
       logistic_learner Constant.segment
     = Fatal "".
Proof.
  split.
  - apply (LoadModel_short_record_fatal (gbm := Constant.ensemble N F32.zero)
             logistic_learner
             (Constant.segment
              ++ [Byte.x00; Byte.x00; Byte.x80; Byte.x3f; Byte.x01])
             [Byte.x00; Byte.x00; Byte.x80; Byte.x3f; Byte.x01] tt);
      [reflexivity | unfold sizeof_ModelParam; cbn; lia].
  - apply (LoadModel_short_record_fatal (gbm := Constant.ensemble N F32.zero)
             logistic_learner Constant.segment [] tt);
      [reflexivity | unfold sizeof_ModelParam; cbn; lia].
Defined.

(** * Further properties *)

(** ** Binding, for any number of evaluation sets *)

Lemma to_uint32_add (a b : Z) :
  to_uint32 (to_uint32 a + to_uint32 b) = to_uint32 (a + b).
Proof.
  unfold to_uint32. rewrite <- Z.add_mod by discriminate. reflexivity.
Qed.

Lemma SetData_fold_count {FM : Type} {fmat : FMatrix FM}
  (evals : list (DMatrix FM)) :
  forall (c nf : Z),
    (fold_left BoostLearner.SetData_step evals (to_uint32 c, nf)).1
    = to_uint32 (c + total_rows evals).
Proof.
  induction evals as [|ev evals IH]; intros c nf.
  - cbn. rewrite Z.add_0_r. reflexivity.
  - cbn [fold_left BoostLearner.SetData_step total_rows foldr].
    rewrite to_uint32_add, IH. f_equal. fold (total_rows evals). lia.
Qed.

Lemma SetData_fold_cols {FM : Type} {fmat : FMatrix FM}
  (evals : list (DMatrix FM)) :
  forall (c nf : Z),
    nf <= (fold_left BoostLearner.SetData_step evals (c, nf)).2
    /\ Forall (fun d => int_cols d
                        <= (fold_left BoostLearner.SetData_step evals (c, nf)).2)
         evals
    /\ ((fold_left BoostLearner.SetData_step evals (c, nf)).2 = nf
        \/ Exists (fun d => (fold_left BoostLearner.SetData_step evals (c, nf)).2
                            = int_cols d) evals).
Proof.
  induction evals as [|ev evals IH]; intros c nf.
  - cbn. split; [lia | split; [constructor | left; reflexivity]].
  - cbn [fold_left BoostLearner.SetData_step].
    fold (int_cols ev).
    destruct (IH (to_uint32 (c + to_uint32 (Z.of_N (Size ev))))
                 (Z.max nf (int_cols ev))) as (Hle & Hall & Hex).
    split; [lia | split].
    + constructor; [lia | exact Hall].
    + destruct Hex as [Heq | Hex].
      * destruct (Z.max_spec nf (int_cols ev)) as [[_ Hm] | [_ Hm]].
        -- right. constructor. rewrite Heq. exact Hm.
        -- left. rewrite Heq. exact Hm.
      * right. apply Exists_cons_tl. exact Hex.
Qed.

Lemma SetData_bounds_count {FM : Type} {fmat : FMatrix FM}
  (train : DMatrix FM) (evals : list (DMatrix FM)) :
  (BoostLearner.SetData_bounds train evals).1
  = to_uint32 (Z.of_N (Size train) + total_rows evals).
Proof. unfold BoostLearner.SetData_bounds. apply SetData_fold_count. Qed.

Lemma SetData_bounds_cols {FM : Type} {fmat : FMatrix FM}
  (train : DMatrix FM) (evals : list (DMatrix FM)) :
  Forall (fun d => int_cols d <= (BoostLearner.SetData_bounds train evals).2)
    (train :: evals)
  /\ Exists (fun d => (BoostLearner.SetData_bounds train evals).2 = int_cols d)
       (train :: evals).
Proof.
  unfold BoostLearner.SetData_bounds. fold (int_cols train).
  destruct (SetData_fold_cols evals (to_uint32 (Z.of_N (Size train)))
              (int_cols train)) as (Hle & Hall & Hex).
  split.
  - constructor; [exact Hle | exact Hall].
  - destruct Hex as [Heq | Hex]; [left; exact Heq | right; exact Hex].
Qed.

Section BindingMore.
Context {FM G : Type} {fmat : FMatrix FM} {gbm : GBTree FM G}.

(** The record after [SetData]: only [num_feature] can change, to the larger
    of its old value and the largest column count. *)
Lemma SetData_mparam (L : BoostLearner.t FM G) (train : DMatrix FM)
  (evals : list (DMatrix FM)) (evname : list string) :
  BoostLearner.mparam (BoostLearner.SetData L train evals evname)
  = ModelParam.set_num_feature
      (Z.max (ModelParam.num_feature (BoostLearner.mparam L))
             (BoostLearner.SetData_bounds train evals).2)
      (BoostLearner.mparam L).
Proof.
  unfold BoostLearner.SetData.
  destruct (BoostLearner.SetData_bounds train evals) as [c nf]. cbn [snd].
  destruct (Z.gtb_spec nf (ModelParam.num_feature (BoostLearner.mparam L)))
    as [Hgt | Hle]; cbn [BoostLearner.mparam].
  - rewrite Z.max_r by lia. reflexivity.
  - rewrite Z.max_l by lia. destruct (BoostLearner.mparam L); reflexivity.
Qed.
End BindingMore.

Section BindingRecorded.
Context {FM G : Type} {fmat : FMatrix FM} (inner : GBTree FM G).

Lemma SetData_feature_log (L : BoostLearner.t FM (G * list (Recorder.call FM)))
  (train : DMatrix FM) (evals : list (DMatrix FM)) (evname : list string) :
  Recorder.params_named "bst:num_feature"
    (Recorder.log
       (BoostLearner.SetData (gbm := Recorder.recording inner) L train evals
          evname))
  = Recorder.params_named "bst:num_feature" (Recorder.log L)
    ++ (if (BoostLearner.SetData_bounds train evals).2
           >? ModelParam.num_feature (BoostLearner.mparam L)
        then [sprintf_d (BoostLearner.SetData_bounds train evals).2]
        else []).
Proof.
  unfold BoostLearner.SetData, Recorder.log.
  destruct (BoostLearner.SetData_bounds train evals) as [c nf]. cbn [snd].
  destruct (nf >? _);
    cbn [BoostLearner.base_gbm gbm_SetParam Recorder.recording fst snd];
    rewrite !params_named_app; cbn; rewrite ?app_nil_r; reflexivity.
Qed.

(** X1: [SetData] never lowers the feature bound.  Afterwards [num_feature]
    is at least its old value and at least the column count, read as an
    [int], of the training set and of every evaluation set; it is the old
    value or one of those counts; the ensemble is told "bst:num_feature",
    with the new value, exactly when the bound was raised; and the bias, the
    loss and the reserved words are as before. *)
Theorem SetData_feature_bound
  (L : BoostLearner.t FM (G * list (Recorder.call FM)))
  (train : DMatrix FM) (evals : list (DMatrix FM)) (evname : list string) :
  let L' := BoostLearner.SetData (gbm := Recorder.recording inner) L train
              evals evname in
  let old := ModelParam.num_feature (BoostLearner.mparam L) in
  let new := ModelParam.num_feature (BoostLearner.mparam L') in
  old <= new
  /\ Forall (fun d => int_cols d <= new) (train :: evals)
  /\ (new = old \/ Exists (fun d => new = int_cols d) (train :: evals))
  /\ Recorder.params_named "bst:num_feature" (Recorder.log L')
     = Recorder.params_named "bst:num_feature" (Recorder.log L)
       ++ (if old <? new then [sprintf_d new] else [])
  /\ ModelParam.base_score (BoostLearner.mparam L')
     = ModelParam.base_score (BoostLearner.mparam L)
  /\ ModelParam.loss_type (BoostLearner.mparam L')
     = ModelParam.loss_type (BoostLearner.mparam L)
  /\ ModelParam.reserved (BoostLearner.mparam L')
     = ModelParam.reserved (BoostLearner.mparam L).
Proof.
  cbv zeta. rewrite SetData_feature_log, SetData_mparam.
  cbn [ModelParam.set_num_feature ModelParam.num_feature
       ModelParam.base_score ModelParam.loss_type ModelParam.reserved].
  destruct (SetData_bounds_cols train evals) as [Hall Hex].
  set (nf := (BoostLearner.SetData_bounds train evals).2) in *.
  set (old := ModelParam.num_feature (BoostLearner.mparam L)).
  split; [lia | split; [|split; [|split]]].
  - eapply Forall_impl; [exact Hall|]. cbn. intros d Hd. lia.
  - destruct (Z.max_spec old nf) as [[Hlt Hm] | [Hge Hm]]; rewrite Hm.
    + right. exact Hex.
    + left. reflexivity.
  - f_equal.
    destruct (Z.gtb_spec nf old) as [Hgt | Hle];
      destruct (Z.ltb_spec old (Z.max old nf)) as [Hlt | Hge]; try lia.
    + rewrite Z.max_r by lia. reflexivity.
    + reflexivity.
  - repeat split.
Qed.

(** X2: for any number of evaluation sets, [SetData] hands the ensemble
    "num_pbuffer" once, with the row count of all the sets reduced modulo
    2^32; it stores the three arguments, sizes the scratch predictions to one
    entry per evaluation set, prints the "buffer_size=" line exactly when
    [silent] is 0, and leaves [silent] and the three per-round arrays alone. *)
Theorem SetData_binds (L : BoostLearner.t FM (G * list (Recorder.call FM)))
  (train : DMatrix FM) (evals : list (DMatrix FM)) (evname : list string) :
  let L' := BoostLearner.SetData (gbm := Recorder.recording inner) L train
              evals evname in
  let count := to_uint32 (Z.of_N (Size train) + total_rows evals) in
  Recorder.params_named "num_pbuffer" (Recorder.log L')
  = Recorder.params_named "num_pbuffer" (Recorder.log L) ++ [sprintf_u count]
  /\ BoostLearner.train_ L' = Some train
  /\ BoostLearner.evals_ L' = evals
  /\ BoostLearner.evname_ L' = evname
  /\ List.length (BoostLearner.eval_preds_ L') = List.length evals
  /\ BoostLearner.console L'
     = BoostLearner.console L
       ++ (if BoostLearner.silent L =? 0
           then [("buffer_size=" ++ sprintf_u count ++ newline)%string]
           else [])
  /\ BoostLearner.silent L' = BoostLearner.silent L
  /\ BoostLearner.preds_ L' = BoostLearner.preds_ L
  /\ BoostLearner.grad_ L' = BoostLearner.grad_ L
  /\ BoostLearner.hess_ L' = BoostLearner.hess_ L.
Proof.
  cbv zeta. split.
  - rewrite SetData_log, SetData_bounds_count. reflexivity.
  - rewrite <- SetData_bounds_count. unfold BoostLearner.SetData.
    destruct (BoostLearner.SetData_bounds train evals) as [c nf]. cbn [fst].
    destruct (nf >? _);
      cbn [BoostLearner.train_ BoostLearner.evals_ BoostLearner.evname_
           BoostLearner.eval_preds_ BoostLearner.console BoostLearner.silent
           BoostLearner.preds_ BoostLearner.grad_ BoostLearner.hess_];
      rewrite length_resize;
      destruct (BoostLearner.silent L =? 0); rewrite ?app_nil_r;
      repeat split.
Qed.

(** X3: binding a second time keeps the feature bound above every column
    count of both bindings and above its first value, replaces the stored
    training set by the new one, and hands the ensemble a second
    "num_pbuffer" computed from the new sets alone. *)
Theorem SetData_twice (L : BoostLearner.t FM (G * list (Recorder.call FM)))
  (train1 train2 : DMatrix FM) (evals1 evals2 : list (DMatrix FM))
  (evname1 evname2 : list string) :
  let L1 := BoostLearner.SetData (gbm := Recorder.recording inner) L train1
              evals1 evname1 in
  let L2 := BoostLearner.SetData (gbm := Recorder.recording inner) L1 train2
              evals2 evname2 in
  ModelParam.num_feature (BoostLearner.mparam L)
  <= ModelParam.num_feature (BoostLearner.mparam L2)
  /\ Forall (fun d => int_cols d
                      <= ModelParam.num_feature (BoostLearner.mparam L2))
       ((train1 :: evals1) ++ (train2 :: evals2))
  /\ BoostLearner.train_ L2 = Some train2
  /\ BoostLearner.evals_ L2 = evals2
  /\ Recorder.params_named "num_pbuffer" (Recorder.log L2)
     = Recorder.params_named "num_pbuffer" (Recorder.log L)
       ++ [sprintf_u (to_uint32 (Z.of_N (Size train1) + total_rows evals1));
           sprintf_u (to_uint32 (Z.of_N (Size train2) + total_rows evals2))].
Proof.
  cbv zeta. rewrite !SetData_log, !SetData_bounds_count, !SetData_mparam.
  cbn [ModelParam.set_num_feature ModelParam.num_feature].
  destruct (SetData_bounds_cols train1 evals1) as [Hall1 _].
  destruct (SetData_bounds_cols train2 evals2) as [Hall2 _].
  split; [lia | split; [|split; [|split]]].
  - apply Forall_app. split.
    + eapply Forall_impl; [exact Hall1|]. cbn. intros d Hd. lia.
    + eapply Forall_impl; [exact Hall2|]. cbn. intros d Hd. lia.
  - apply (SetData_train inner).
  - unfold BoostLearner.SetData at 1.
    destruct (BoostLearner.SetData_bounds train2 evals2) as [c nf].
    destruct (nf >? _); reflexivity.
  - rewrite <- app_assoc. reflexivity.
Qed.
End BindingRecorded.

(** ** Loops, split in two *)

Lemma for_loop_app {St : Type} (body : Z -> St -> result St) (a b : nat) :
  forall (from : Z) (s : St),
    for_loop body from (a + b) s
    = (s' ← for_loop body from a s; for_loop body (from + Z.of_nat a) b s').
Proof.
  induction a as [|a IH]; intros from s.
  - cbn. rewrite Z.add_0_r. reflexivity.
  - cbn [Nat.add for_loop]. destruct (body from s) as [s1|msg|u]; cbn;
      [|reflexivity..].
    rewrite IH. do 2 f_equal.
    replace (from + 1 + Z.of_nat a) with (from + Z.of_nat (S a)) by lia.
    reflexivity.
Qed.

(** ** Gradients, in closed form *)

Lemma GetGradient_closed (m : ModelParam.t)
  (preds labels grad hess : list float32) :
  0 <= ModelParam.loss_type m <= 2 ->
  (List.length preds <= List.length labels)%nat ->
  Z.of_nat (List.length preds) < 2 ^ 32 ->
  exists h,
    BoostLearner.GetGradient m preds labels grad hess
    = Ok (zip_with F32.sub preds labels, h)
    /\ List.length h = List.length preds
    /\ forall (i : nat) (p : float32),
         preds !! i = Some p ->
         h !! i = Some (if ModelParam.loss_type m =? kLinearSquare
                        then F32.one else F32.mul p (F32.sub F32.one p)).
Proof.
  intros Hl Hlab Hn.
  destruct (GetGradient_values m preds labels grad hess Hl Hlab)
    as (g & h & Hrun & Hg & Hh & Hval).
  rewrite to_uint32_id in Hval by lia.
  assert (Hgz : g = zip_with F32.sub preds labels).
  { apply list_eq. intros i. rewrite lookup_zip_with.
    destruct (preds !! i) as [p|] eqn:Hp; cbn.
    - apply lookup_lt_Some in Hp as Hi.
      destruct (lookup_lt_is_Some_2 labels i ltac:(lia)) as [y Hy].
      rewrite Hy. cbn. apply (Hval i p y); [lia | assumption..].
    - apply lookup_ge_None in Hp. apply lookup_ge_None. lia. }
  exists h. subst g. split; [exact Hrun | split; [exact Hh|]].
  intros i p Hp. apply lookup_lt_Some in Hp as Hi.
  destruct (lookup_lt_is_Some_2 labels i ltac:(lia)) as [y Hy].
  apply (Hval i p y); [lia | assumption..].
Qed.

(** X4: with a known loss, a label for every prediction and fewer than 2^32
    predictions, [GetGradient] returns the element-wise [preds - labels] as
    first-order gradients and, row by row, what [SecondOrderGradient] gives
    for the prediction; nothing of the previous contents of [grad] and [hess]
    survives. *)
Theorem GetGradient_closed_form (m : ModelParam.t)
  (preds labels grad hess : list float32) :
  0 <= ModelParam.loss_type m <= 2 ->
  (List.length preds <= List.length labels)%nat ->
  Z.of_nat (List.length preds) < 2 ^ 32 ->
  (exists h,
      BoostLearner.GetGradient m preds labels grad hess
      = Ok (zip_with F32.sub preds labels, h)
      /\ Forall2 (fun p d => forall y,
                    ModelParam.SecondOrderGradient m p y = Ok d) preds h)
  /\ BoostLearner.GetGradient m preds labels grad hess
     = BoostLearner.GetGradient m preds labels [] [].
Proof.
  intros Hl Hlab Hn.
  destruct (GetGradient_closed m preds labels grad hess Hl Hlab Hn)
    as (h & Hrun & Hlen & Hval).
  destruct (GetGradient_closed m preds labels [] [] Hl Hlab Hn)
    as (h0 & Hrun0 & Hlen0 & Hval0).
  split.
  - exists h. split; [exact Hrun|].
    apply Forall2_same_length_lookup. split; [lia|].
    intros i p d Hp Hd y. rewrite (Hval i p Hp) in Hd. injection Hd as <-.
    apply SecondOrderGradient_valid. exact Hl.
  - rewrite Hrun, Hrun0. do 2 f_equal. apply list_eq. intros i.
    destruct (preds !! i) as [p|] eqn:Hp.
    + rewrite (Hval i p Hp), (Hval0 i p Hp). reflexivity.
    + apply lookup_ge_None in Hp.
      rewrite (lookup_ge_None_2 h), (lookup_ge_None_2 h0) by lia. reflexivity.
Qed.

Lemma GetGradient_closed_form_witness :
  BoostLearner.GetGradient
    (ModelParam.mk F32.half kLogisticNeglik 0 (replicate 16 0))
    [F32.half; F32.one] [F32.one; F32.zero; F32.one]
    [F32.one; F32.one; F32.one] [F32.one]
  = BoostLearner.GetGradient
      (ModelParam.mk F32.half kLogisticNeglik 0 (replicate 16 0))
      [F32.half; F32.one] [F32.one; F32.zero; F32.one] [] [].
Proof.
  apply (GetGradient_closed_form
           (ModelParam.mk F32.half kLogisticNeglik 0 (replicate 16 0))
           [F32.half; F32.one] [F32.one; F32.zero; F32.one]
           [F32.one; F32.one; F32.one] [F32.one]);
    unfold kLogisticNeglik; cbn; lia.
Defined.

(** ** Failing rounds *)

Lemma vec_get_out_of_range {A : Type} (v : list A) (j : Z) :
  Z.of_nat (List.length v) <= j -> vec_get v j = Undef IndexOutOfRange.
Proof.
  intros Hj. unfold vec_get.
  replace (j <? Z.of_nat (List.length v)) with false
    by (symmetry; apply Z.ltb_ge; exact Hj).
  rewrite andb_false_r. reflexivity.
Qed.

Lemma unknown_loss_tests (m : ModelParam.t) :
  ~ 0 <= ModelParam.loss_type m <= 2 ->
  (ModelParam.loss_type m =? kLinearSquare) = false
  /\ (ModelParam.loss_type m =? kLogisticClassify)
     || (ModelParam.loss_type m =? kLogisticNeglik) = false.
Proof.
  unfold kLinearSquare, kLogisticClassify, kLogisticNeglik. intros Hl.
  split; [|apply orb_false_iff; split]; apply Z.eqb_neq; lia.
Qed.

Lemma PredTransform_unknown (libm : LibM) (m : ModelParam.t) (x : float32) :
  ~ 0 <= ModelParam.loss_type m <= 2 ->
  ModelParam.PredTransform libm m x = Fatal "unknown loss_type".
Proof.
  intros Hl. destruct (unknown_loss_tests m Hl) as [H0 H12].
  unfold ModelParam.PredTransform. rewrite H0, H12. reflexivity.
Qed.

Lemma FirstOrderGradient_unknown (m : ModelParam.t) (p y : float32) :
  ~ 0 <= ModelParam.loss_type m <= 2 ->
  ModelParam.FirstOrderGradient m p y = Fatal "unknown loss_type".
Proof.
  intros Hl. destruct (unknown_loss_tests m Hl) as [H0 H12].
  unfold ModelParam.FirstOrderGradient. rewrite H0, H12. reflexivity.
Qed.

Lemma SecondOrderGradient_unknown (m : ModelParam.t) (p y : float32) :
  ~ 0 <= ModelParam.loss_type m <= 2 ->
  ModelParam.SecondOrderGradient m p y = Fatal "unknown loss_type".
Proof.
  intros Hl. destruct (unknown_loss_tests m Hl) as [H0 H12].
  unfold ModelParam.SecondOrderGradient. rewrite H0, H12. reflexivity.
Qed.

(** X5: with a known loss and fewer labels than predictions (fewer than 2^32
    of these), [GetGradient] reads [labels] past its end: the rows that have
    a label are computed, the first one without is an out-of-range access. *)
Theorem GetGradient_short_labels (m : ModelParam.t)
  (preds labels grad hess : list float32) :
  0 <= ModelParam.loss_type m <= 2 ->
  (List.length labels < List.length preds)%nat ->
  Z.of_nat (List.length preds) < 2 ^ 32 ->
  BoostLearner.GetGradient m preds labels grad hess = Undef IndexOutOfRange.
Proof.
  intros Hl Hlab Hn. unfold BoostLearner.GetGradient.
  rewrite to_uint32_id, Nat2Z.id by lia.
  set (n := List.length preds) in *. set (k := List.length labels) in *.
  enough (Hcount : forall count, count = (k + S (n - k - 1))%nat ->
            for_loop (BoostLearner.GetGradient_step m preds labels) 0 count
              (resize n F32.zero grad, resize n F32.zero hess)
            = Undef IndexOutOfRange) by (apply Hcount; lia).
  intros count ->. rewrite for_loop_app.
  destruct (for_loop_total (BoostLearner.GetGradient_step m preds labels)
              (fun _ s => List.length s.1 = n /\ List.length s.2 = n) k 0
              (resize n F32.zero grad, resize n F32.zero hess))
    as ([g h] & Hrun & Hg & Hh).
  - cbn. rewrite !length_resize. split; reflexivity.
  - intros j [g h] Hj [Hg Hh]. cbn in Hg, Hh.
    unfold BoostLearner.GetGradient_step.
    destruct (vec_get_in_range preds j ltac:(fold n; lia)) as (p & Hp & _).
    destruct (vec_get_in_range labels j ltac:(fold k; lia)) as (y & Hy & _).
    rewrite Hp, Hy. cbn.
    rewrite (FirstOrderGradient_valid m p y Hl). cbn.
    rewrite (vec_set_in_range g j _) by lia. cbn.
    rewrite (SecondOrderGradient_valid m p y Hl). cbn.
    rewrite (vec_set_in_range h j _) by lia. cbn.
    eexists. split; [reflexivity|]. cbn. rewrite !length_insert.
    split; assumption.
  - assert (Hstep : BoostLearner.GetGradient_step m preds labels
                      (Z.of_nat k) (g, h) = Undef IndexOutOfRange).
    { unfold BoostLearner.GetGradient_step.
      destruct (vec_get_in_range preds (Z.of_nat k) ltac:(fold n; lia))
        as (p & Hp & _).
      rewrite Hp. cbn [mbind result_bind].
      rewrite (vec_get_out_of_range labels (Z.of_nat k)) by (fold k; lia).
      reflexivity. }
    rewrite Hrun, Z.add_0_l. cbn [mbind result_bind for_loop].
    rewrite Hstep. reflexivity.
Qed.

Lemma GetGradient_short_labels_witness :
  BoostLearner.GetGradient ModelParam.init
    [F32.zero; F32.half; F32.one] [F32.one; F32.zero] [] []
  = Undef IndexOutOfRange.
Proof.
  apply (GetGradient_short_labels ModelParam.init
           [F32.zero; F32.half; F32.one] [F32.one; F32.zero] [] []);
    cbn; lia.
Defined.

Lemma GetGradient_nil (m : ModelParam.t) (labels grad hess : list float32) :
  BoostLearner.GetGradient m [] labels grad hess = Ok ([], []).
Proof.
  unfold BoostLearner.GetGradient. cbn [List.length].
  rewrite !resize_0. reflexivity.
Qed.

(** X6: [GetGradient] on no prediction returns two empty arrays, whatever
    the loss, the labels and the previous arrays; on at least one prediction
    (fewer than 2^32) with a label for the first row, an unknown loss ends
    the process at the first row. *)
Theorem GetGradient_edges (m : ModelParam.t)
  (preds labels grad hess : list float32) :
  BoostLearner.GetGradient m [] labels grad hess = Ok ([], [])
  /\ (~ 0 <= ModelParam.loss_type m <= 2 ->
      (0 < List.length preds)%nat -> Z.of_nat (List.length preds) < 2 ^ 32 ->
      (0 < List.length labels)%nat ->
      BoostLearner.GetGradient m preds labels grad hess
      = Fatal "unknown loss_type").
Proof.
  split; [apply GetGradient_nil|].
  intros Hl Hp Hn Hlab. unfold BoostLearner.GetGradient.
  rewrite to_uint32_id, Nat2Z.id by lia.
  destruct (List.length preds) as [|c] eqn:Hc; [lia|].
  cbn [for_loop].
  assert (Hstep : forall s,
            BoostLearner.GetGradient_step m preds labels 0 s
            = Fatal "unknown loss_type").
  { intros [g h]. unfold BoostLearner.GetGradient_step.
    destruct (vec_get_in_range preds 0 ltac:(lia)) as (p & Hp0 & _).
    destruct (vec_get_in_range labels 0 ltac:(lia)) as (y & Hy0 & _).
    rewrite Hp0, Hy0. cbn [mbind result_bind].
    rewrite (FirstOrderGradient_unknown m p y Hl). reflexivity. }
  rewrite Hstep. reflexivity.
Qed.

Lemma GetGradient_edges_witness :
  BoostLearner.GetGradient (ModelParam.mk F32.half 7 0 (replicate 16 0))
    [F32.half] [F32.one] [] []
  = Fatal "unknown loss_type".
Proof.
  apply (GetGradient_edges (ModelParam.mk F32.half 7 0 (replicate 16 0))
           [F32.half] [F32.one] [] []); cbn; lia.
Defined.

Section Rounds.
Context (libm : LibM) {FM G : Type} {gbm : GBTree FM G}.

(** X7: a round under an unknown loss, on a training set of at least one row
    (fewer than 2^32), ends the process at the transform of the first row;
    [DoBoost] is not reached. *)
Theorem UpdateOneIter_unknown_loss (L : BoostLearner.t FM G)
  (train : DMatrix FM) (iter : Z) :
  BoostLearner.train_ L = Some train ->
  ~ 0 <= ModelParam.loss_type (BoostLearner.mparam L) <= 2 ->
  (0 < Size train)%N -> Z.of_N (Size train) < 2 ^ 32 ->
  BoostLearner.UpdateOneIter libm L iter = Fatal "unknown loss_type".
Proof.
  intros Htrain Hl Hpos Hn. unfold BoostLearner.UpdateOneIter.
  rewrite Htrain. unfold BoostLearner.PredictBuffer.
  rewrite to_uint32_id by lia.
  destruct (Z.to_nat (Z.of_N (Size train))) as [|c] eqn:Hc; [lia|].
  cbn [for_loop].
  assert (Hstep : forall s,
            BoostLearner.PredictBuffer_step libm (BoostLearner.mparam L)
              train 0 0 s = Fatal "unknown loss_type").
  { intros [ps g]. unfold BoostLearner.PredictBuffer_step.
    destruct (gbm_Predict g (data train) 0 (to_uint32 (0 + 0))) as [raw g'].
    rewrite (PredTransform_unknown libm _ _ Hl). reflexivity. }
  rewrite Hstep. reflexivity.
Qed.

(** X8: a round on a training set without rows returns, whatever the loss:
    the three arrays are left empty and the ensemble receives [DoBoost] with
    two empty arrays, without any [Predict] before. *)
Theorem UpdateOneIter_no_rows (L : BoostLearner.t FM G)
  (train : DMatrix FM) (iter : Z) :
  BoostLearner.train_ L = Some train ->
  Size train = 0%N ->
  exists L',
    BoostLearner.UpdateOneIter libm L iter = Ok L'
    /\ BoostLearner.preds_ L' = []
    /\ BoostLearner.grad_ L' = []
    /\ BoostLearner.hess_ L' = []
    /\ BoostLearner.base_gbm L'
       = gbm_DoBoost (BoostLearner.base_gbm L) [] [] (data train) []
    /\ BoostLearner.mparam L' = BoostLearner.mparam L.
Proof.
  intros Htrain Hsize. unfold BoostLearner.UpdateOneIter.
  rewrite Htrain. unfold BoostLearner.PredictBuffer. rewrite Hsize.
  change (Z.to_nat (to_uint32 (Z.of_N 0))) with 0%nat.
  change (N.to_nat 0) with 0%nat. rewrite resize_0.
  cbn [for_loop mbind result_bind]. rewrite GetGradient_nil.
  cbn [mbind result_bind]. eexists. repeat split.
Qed.
End Rounds.

Lemma UpdateOneIter_unknown_loss_witness :
  BoostLearner.UpdateOneIter (gbm := Constant.ensemble N F32.half)
    libm_special_values
    (bound_learner 7 (mkDMatrix 3%N [F32.one; F32.zero] 2)) 0
  = Fatal "unknown loss_type".
Proof.
  apply (UpdateOneIter_unknown_loss (gbm := Constant.ensemble N F32.half)
           libm_special_values
           (bound_learner 7 (mkDMatrix 3%N [F32.one; F32.zero] 2))
           (mkDMatrix 3%N [F32.one; F32.zero] 2) 0);
    cbn; (reflexivity || lia).
Defined.

Lemma UpdateOneIter_no_rows_witness :
  exists L',
    BoostLearner.UpdateOneIter (gbm := Constant.ensemble N F32.half)
      libm_special_values (bound_learner 7 (mkDMatrix 3%N [] 0)) 0
    = Ok L'
    /\ BoostLearner.grad_ L' = [].
Proof.
  destruct (UpdateOneIter_no_rows (gbm := Constant.ensemble N F32.half)
              libm_special_values (bound_learner 7 (mkDMatrix 3%N [] 0))
              (mkDMatrix 3%N [] 0) 0)
    as (L' & Hrun & _ & Hg & _); [reflexivity | reflexivity |].
  exists L'. split; [exact Hrun | exact Hg].
Defined.

(** ** A round in general *)

Section RoundsRecorded.
Context (libm : LibM) {FM G : Type} (inner : GBTree FM G).

(** X9: [PredictBuffer] never indexes outside [preds]; when it returns,
    [preds] has one entry per row and the ensemble has received one [Predict]
    per row below [ndata], in row order, row [j] with the slot
    [(buffer_offset + j) mod 2^32]; when the offset and the row count add up
    to at most 2^32 these are the consecutive slots from [buffer_offset]. *)
Theorem PredictBuffer_slots (m : ModelParam.t) (g : G)
  (lg : list (Recorder.call FM)) (preds : list float32) (dat : DMatrix FM)
  (off : Z) :
  (forall u,
      BoostLearner.PredictBuffer (gbm := Recorder.recording inner) libm m
        (g, lg) preds dat off <> Undef u)
  /\ (forall ps g' lg',
        BoostLearner.PredictBuffer (gbm := Recorder.recording inner) libm m
          (g, lg) preds dat off = Ok (ps, (g', lg')) ->
        List.length ps = N.to_nat (Size dat)
        /\ Recorder.predicted lg'
           = Recorder.predicted lg
             ++ map (fun j => (j, to_uint32 (off + j)))
                  (seqZ 0 (to_uint32 (Z.of_N (Size dat))))
        /\ Recorder.boosted lg' = Recorder.boosted lg
        /\ (0 <= off -> Z.of_N (Size dat) < 2 ^ 32 ->
            off + Z.of_N (Size dat) <= 2 ^ 32 ->
            Recorder.predicted lg'
            = Recorder.predicted lg
              ++ map (fun j => (j, off + j)) (seqZ 0 (Z.of_N (Size dat))))).
Proof.
  pose proof (PredictBuffer_safely libm inner m g lg preds dat off) as Hs.
  split.
  - intros u Hu. rewrite Hu in Hs. exact Hs.
  - intros ps g' lg' Hrun. rewrite Hrun in Hs. destruct Hs as [Hlen Hlog].
    cbn in Hlen, Hlog. subst lg'.
    rewrite predicted_app, boosted_app, predicted_calls_at,
      boosted_predict_calls, app_nil_r.
    split; [exact Hlen | split; [reflexivity | split; [reflexivity|]]].
    intros Hoff Hsize Hsum. f_equal.
    rewrite (to_uint32_id (Z.of_N (Size dat))) by lia.
    apply map_seqZ_ext. intros j Hj. rewrite to_uint32_id by lia. reflexivity.
Qed.

End RoundsRecorded.

Lemma PredictBuffer_slots_witness :
  exists ps g' lg',
    BoostLearner.PredictBuffer
      (gbm := Recorder.recording (Constant.ensemble N F32.half))
      libm_special_values ModelParam.init (tt, []) []
      (mkDMatrix 3%N [] 2) 5 = Ok (ps, (g', lg'))
    /\ Recorder.predicted lg' = [(0, 5); (1, 6)].
Proof.
  destruct (PredictBuffer_slots libm_special_values
              (Constant.ensemble N F32.half) ModelParam.init tt [] []
              (mkDMatrix 3%N [] 2) 5) as [_ Hok].
  assert (Hrun :
    BoostLearner.PredictBuffer
      (gbm := Recorder.recording (Constant.ensemble N F32.half))
      libm_special_values ModelParam.init (tt, []) []
      (mkDMatrix 3%N [] 2) 5
    = Ok ([F32.one; F32.one],
          (tt, [Recorder.CPredict 3%N 0 5; Recorder.CPredict 3%N 1 6])))
    by (vm_compute; reflexivity).
  eexists _, _, _. split; [exact Hrun|].
  destruct (Hok _ _ _ Hrun) as (_ & _ & _ & Hslots).
  rewrite Hslots by (cbn; lia). reflexivity.
Defined.

Section RoundRecorded.
Context (libm : LibM) {FM G : Type} (inner : GBTree FM G).

(** X10: a round over any training set of fewer than 2^32 rows, with a known
    loss and a label per row, returns.  Each prediction is the transform of
    the bias plus an answer of the ensemble for a row of the training
    matrix; the first-order gradients are [preds - labels] row by row, the
    second-order ones what [SecondOrderGradient] gives for the prediction;
    the ensemble has received one [Predict] per row, row [j] with slot [j],
    and then one [DoBoost] with the two gradient arrays, the training matrix
    and an empty root index; the record, the bindings, [silent] and the
    console are as before. *)
Theorem UpdateOneIter_round
  (L : BoostLearner.t FM (G * list (Recorder.call FM)))
  (train : DMatrix FM) (iter : Z) :
  BoostLearner.train_ L = Some train ->
  0 <= ModelParam.loss_type (BoostLearner.mparam L) <= 2 ->
  (N.to_nat (Size train) <= List.length (labels train))%nat ->
  Z.of_N (Size train) < 2 ^ 32 ->
  exists L',
    BoostLearner.UpdateOneIter (gbm := Recorder.recording inner) libm L iter
    = Ok L'
    /\ List.length (BoostLearner.preds_ L') = N.to_nat (Size train)
    /\ Forall (fun a => exists g0 j slot,
                 ModelParam.PredTransform libm (BoostLearner.mparam L)
                   (F32.add (ModelParam.base_score (BoostLearner.mparam L))
                      (gbm_Predict g0 (data train) j slot).1) = Ok a)
         (BoostLearner.preds_ L')
    /\ BoostLearner.grad_ L'
       = zip_with F32.sub (BoostLearner.preds_ L') (labels train)
    /\ Forall2 (fun p d => forall y,
                  ModelParam.SecondOrderGradient (BoostLearner.mparam L) p y
                  = Ok d)
         (BoostLearner.preds_ L') (BoostLearner.hess_ L')
    /\ Recorder.log L'
       = Recorder.log L
         ++ Recorder.predict_calls (data train) 0 (Z.of_N (Size train))
         ++ [Recorder.CDoBoost (BoostLearner.grad_ L') (BoostLearner.hess_ L')
               (data train) []]
    /\ BoostLearner.mparam L' = BoostLearner.mparam L
    /\ BoostLearner.train_ L' = BoostLearner.train_ L
    /\ BoostLearner.evals_ L' = BoostLearner.evals_ L
    /\ BoostLearner.evname_ L' = BoostLearner.evname_ L
    /\ BoostLearner.eval_preds_ L' = BoostLearner.eval_preds_ L
    /\ BoostLearner.silent L' = BoostLearner.silent L
    /\ BoostLearner.console L' = BoostLearner.console L.
Proof.
  intros Htrain Hl Hlab Hn.
  unfold BoostLearner.UpdateOneIter, Recorder.log. rewrite Htrain.
  destruct (BoostLearner.base_gbm L) as [g lg].
  destruct (PredictBuffer_values libm inner (BoostLearner.mparam L) g lg
              (BoostLearner.preds_ L) train 0 Hl)
    as (ps & g' & Hrun & Hlen & Hval).
  rewrite Hrun. cbn [mbind result_bind].
  rewrite (to_uint32_id (Z.of_N (Size train))) in * by lia.
  destruct (GetGradient_closed (BoostLearner.mparam L) ps (labels train)
              (BoostLearner.grad_ L) (BoostLearner.hess_ L) Hl)
    as (h & Hgrad & Hlh & Hh); [lia | lia |].
  rewrite Hgrad. cbn [mbind result_bind].
  eexists. split; [reflexivity|].
  cbn [BoostLearner.preds_ BoostLearner.grad_ BoostLearner.hess_
       BoostLearner.base_gbm BoostLearner.mparam BoostLearner.train_
       BoostLearner.evals_ BoostLearner.evname_ BoostLearner.eval_preds_
       BoostLearner.silent BoostLearner.console
       gbm_DoBoost Recorder.recording fst snd].
  split; [exact Hlen|]. split.
  { apply Forall_lookup. intros i a Ha.
    apply lookup_lt_Some in Ha as Hi.
    destruct (Hval i a ltac:(lia) Ha) as (g0 & Hp).
    exists g0, (Z.of_nat i), (to_uint32 (0 + Z.of_nat i)). exact Hp. }
  split; [reflexivity|]. split.
  { apply Forall2_same_length_lookup. split; [lia|].
    intros i p d Hp Hd y. rewrite (Hh i p Hp) in Hd. injection Hd as <-.
    apply SecondOrderGradient_valid. exact Hl. }
  split; [rewrite <- app_assoc; reflexivity|].
  repeat split.
Qed.
End RoundRecorded.

Lemma UpdateOneIter_round_witness :
  exists L',
    BoostLearner.UpdateOneIter
      (gbm := Recorder.recording (Constant.ensemble N F32.zero))
      libm_special_values linear_square_learner 0
    = Ok L'
    /\ BoostLearner.grad_ L'
       = zip_with F32.sub (BoostLearner.preds_ L')
           [F32.one; F32.zero; F32.one; F32.zero].
Proof.
  destruct (UpdateOneIter_round libm_special_values
              (Constant.ensemble N F32.zero) linear_square_learner
              (mkDMatrix 3%N [F32.one; F32.zero; F32.one; F32.zero] 4) 0)
    as (L' & Hrun & _ & _ & Hg & _);
    [reflexivity | unfold linear_square_learner, kLinearSquare; cbn; lia
    | cbn; lia | cbn; lia |].
  exists L'. split; [exact Hrun | exact Hg].
Defined.

(** ** Calibrating twice, and losses nobody checked *)

Lemma F32_neg_not_positive (v : float32) :
  F32.leb F32.zero v = true -> F32.ltb F32.zero (F32.neg v) = false.
Proof.
  destruct v as [s|s| |s mv ev]; try destruct s; cbn;
    first [reflexivity | discriminate].
Qed.

Section Calibration.
Context (libm : LibM) {FM G : Type} {gbm : GBTree FM G}.

(** X11: [InitModel] is not idempotent.  Under a logistic loss with a bias
    strictly between 0 and 1 whose [logf(1/b - 1)] is not negative (a bias
    of at most one half), a first call returns with the calibrated bias and
    the ensemble initialised, and a second call on the result ends the
    process on the range assertion. *)
Theorem InitModel_twice (L : BoostLearner.t FM G) :
  ModelParam.loss_type (BoostLearner.mparam L) = kLogisticNeglik
  \/ ModelParam.loss_type (BoostLearner.mparam L) = kLogisticClassify ->
  F32.ltb F32.zero (ModelParam.base_score (BoostLearner.mparam L)) = true ->
  F32.ltb (ModelParam.base_score (BoostLearner.mparam L)) F32.one = true ->
  F32.leb F32.zero
    (logf libm
       (F32.sub
          (F32.div F32.one (ModelParam.base_score (BoostLearner.mparam L)))
          F32.one)) = true ->
  exists L1,
    BoostLearner.InitModel libm L = Ok L1
    /\ ModelParam.base_score (BoostLearner.mparam L1)
       = F32.neg
           (logf libm
              (F32.sub
                 (F32.div F32.one
                    (ModelParam.base_score (BoostLearner.mparam L)))
                 F32.one))
    /\ BoostLearner.base_gbm L1 = gbm_InitModel (BoostLearner.base_gbm L)
    /\ BoostLearner.InitModel libm L1 = Fatal "sigmoid range constrain".
Proof.
  intros Hl H0 H1 Hv. unfold BoostLearner.InitModel at 1.
  rewrite (AdjustBase_logistic libm _ Hl), H0, H1. cbn [andb Assert mbind result_bind].
  eexists. split; [reflexivity|].
  cbn [BoostLearner.mparam BoostLearner.base_gbm ModelParam.set_base_score
       ModelParam.base_score].
  split; [reflexivity | split; [reflexivity|]].
  unfold BoostLearner.InitModel. cbn [BoostLearner.mparam].
  rewrite AdjustBase_logistic by exact Hl.
  cbn [ModelParam.set_base_score ModelParam.base_score].
  rewrite (F32_neg_not_positive _ Hv). reflexivity.
Qed.
End Calibration.

Lemma InitModel_twice_witness :
  exists L1,
    BoostLearner.InitModel (gbm := Constant.ensemble N F32.zero)
      libm_special_values logistic_learner = Ok L1
    /\ BoostLearner.InitModel (gbm := Constant.ensemble N F32.zero)
         libm_special_values L1 = Fatal "sigmoid range constrain".
Proof.
  destruct (InitModel_twice (gbm := Constant.ensemble N F32.zero)
              libm_special_values logistic_learner)
    as (L1 & Hrun & _ & _ & Hagain); [right; reflexivity | reflexivity..|].
  exists L1. split; [exact Hrun | exact Hagain].
Defined.

(** X12: no loss is checked when it is set.  [SetParam] stores any [int]
    under "loss_type"; for a value outside 0, 1, 2, [AdjustBase] returns the
    record as it is, and the transform and both gradients end the process
    with "unknown loss_type" on every argument. *)
Theorem loss_type_unchecked (libm : LibM) (m : ModelParam.t) (v : Z) :
  is_int32 v -> ~ 0 <= v <= 2 ->
  let m' := ModelParam.SetParam libm m "loss_type" (sprintf_d v) in
  m' = ModelParam.mk (ModelParam.base_score m) v (ModelParam.num_feature m)
         (ModelParam.reserved m)
  /\ ModelParam.AdjustBase libm m' = Ok m'
  /\ (forall x, ModelParam.PredTransform libm m' x = Fatal "unknown loss_type")
  /\ (forall p y,
        ModelParam.FirstOrderGradient m' p y = Fatal "unknown loss_type")
  /\ (forall p y,
        ModelParam.SecondOrderGradient m' p y = Fatal "unknown loss_type").
Proof.
  intros Hv Hout. cbv zeta.
  assert (Hset : ModelParam.SetParam libm m "loss_type" (sprintf_d v)
                 = ModelParam.mk (ModelParam.base_score m) v
                     (ModelParam.num_feature m) (ModelParam.reserved m)).
  { unfold ModelParam.SetParam. cbn [streq String.eqb Ascii.eqb Bool.eqb].
    rewrite (atoi_sprintf_d v Hv). reflexivity. }
  rewrite Hset.
  assert (Hl : ~ 0 <= ModelParam.loss_type
                       (ModelParam.mk (ModelParam.base_score m) v
                          (ModelParam.num_feature m) (ModelParam.reserved m))
                  <= 2) by exact Hout.
  split; [reflexivity | split; [|split; [|split]]].
  - unfold ModelParam.AdjustBase. cbn [ModelParam.loss_type].
    replace (v =? 1) with false by (symmetry; apply Z.eqb_neq; lia).
    replace (v =? 2) with false by (symmetry; apply Z.eqb_neq; lia).
    reflexivity.
  - intros x. apply PredTransform_unknown. exact Hl.
  - intros p y. apply FirstOrderGradient_unknown. exact Hl.
  - intros p y. apply SecondOrderGradient_unknown. exact Hl.
Qed.

Lemma loss_type_unchecked_witness :
  ModelParam.PredTransform libm_special_values
    (ModelParam.SetParam libm_special_values ModelParam.init "loss_type"
       (sprintf_d 7)) F32.zero
  = Fatal "unknown loss_type".
Proof.
  apply (loss_type_unchecked libm_special_values ModelParam.init 7);
    unfold is_int32; lia.
Defined.

(** ** Named parameters, one after another *)

(** decides the tests of [ModelParam.SetParam] on a name *)
Ltac name_cases name :=
  destruct (String.eqb_spec "base_score" name) as [?|?];
  [ subst name
  | destruct (String.eqb_spec "loss_type" name) as [?|?];
    [ subst name
    | destruct (String.eqb_spec "bst:num_feature" name) as [?|?];
      [ subst name | ] ] ].

(** X13: two calls of [ModelParam::SetParam] under different names commute,
    recognised or not. *)
Theorem SetParam_commutes (libm : LibM) (m : ModelParam.t)
  (name1 val1 name2 val2 : string) :
  name1 <> name2 ->
  ModelParam.SetParam libm (ModelParam.SetParam libm m name1 val1) name2 val2
  = ModelParam.SetParam libm (ModelParam.SetParam libm m name2 val2)
      name1 val1.
Proof.
  intros Hne. destruct m as [b lt nf rs].
  unfold ModelParam.SetParam, streq.
  name_cases name1; name_cases name2; try congruence; reflexivity.
Qed.

Lemma SetParam_commutes_witness :
  ModelParam.SetParam libm_special_values
    (ModelParam.SetParam libm_special_values ModelParam.init
       "loss_type" "2") "bst:num_feature" "9"
  = ModelParam.SetParam libm_special_values
      (ModelParam.SetParam libm_special_values ModelParam.init
         "bst:num_feature" "9") "loss_type" "2".
Proof.
  apply (SetParam_commutes libm_special_values ModelParam.init
           "loss_type" "2" "bst:num_feature" "9").
  discriminate.
Defined.

(** X14: of two calls of [ModelParam::SetParam] under the same name the
    second one wins: the result is that of the second call alone. *)
Theorem SetParam_last_wins (libm : LibM) (m : ModelParam.t)
  (name val1 val2 : string) :
  ModelParam.SetParam libm (ModelParam.SetParam libm m name val1) name val2
  = ModelParam.SetParam libm m name val2.
Proof.
  destruct m as [b lt nf rs].
  unfold ModelParam.SetParam, streq.
  name_cases name; reflexivity.
Qed.

(** ** Streams with more in them *)

Section PersistenceMore.
Context {FM G : Type} {gbm : GBTree FM G}.

(** X15: [SaveModel] only appends: the ensemble's segment, then the 76 bytes
    of the record.  [LoadModel], over an ensemble that reads back its own
    segment, consumes exactly these bytes: whatever follows them is left in
    the stream, the record loaded is the one saved, and the other members of
    the loading learner are untouched. *)
Theorem LoadModel_after_SaveModel (saved fresh : BoostLearner.t FM G)
  (g' : G) (fo tail : IStream) :
  ModelParam_valid (BoostLearner.mparam saved) ->
  (forall rest,
      gbm_LoadModel (BoostLearner.base_gbm fresh)
        (gbm_SaveModel (BoostLearner.base_gbm saved) ++ rest)
      = Ok (g', rest)) ->
  BoostLearner.SaveModel saved fo
  = fo ++ gbm_SaveModel (BoostLearner.base_gbm saved)
       ++ ModelParam_to_bytes (BoostLearner.mparam saved)
  /\ List.length (BoostLearner.SaveModel saved fo)
     = (List.length fo
        + List.length (gbm_SaveModel (BoostLearner.base_gbm saved))
        + 76)%nat
  /\ exists L',
      BoostLearner.LoadModel fresh (BoostLearner.SaveModel saved [] ++ tail)
      = Ok (L', tail)
      /\ BoostLearner.mparam L' = BoostLearner.mparam saved
      /\ BoostLearner.base_gbm L' = g'
      /\ BoostLearner.silent L' = BoostLearner.silent fresh
      /\ BoostLearner.train_ L' = BoostLearner.train_ fresh
      /\ BoostLearner.evals_ L' = BoostLearner.evals_ fresh
      /\ BoostLearner.preds_ L' = BoostLearner.preds_ fresh
      /\ BoostLearner.evname_ L' = BoostLearner.evname_ fresh.
Proof.
  intros Hv Hg.
  pose proof (length_ModelParam_to_bytes (BoostLearner.mparam saved)
                (proj1 (proj2 (proj2 (proj2 Hv))))) as Hlen.
  unfold sizeof_ModelParam in Hlen.
  assert (Hsave : forall fo',
            BoostLearner.SaveModel saved fo'
            = fo' ++ gbm_SaveModel (BoostLearner.base_gbm saved)
                  ++ ModelParam_to_bytes (BoostLearner.mparam saved)).
  { intros fo'. unfold BoostLearner.SaveModel, Write, sizeof_ModelParam.
    rewrite take_ge by lia. rewrite <- app_assoc. reflexivity. }
  split; [apply Hsave | split].
  - rewrite Hsave, !length_app, Hlen. lia.
  - rewrite Hsave, app_nil_l, <- app_assoc.
    rewrite (LoadModel_outcome fresh _ _ g' (Hg _)).
    unfold sizeof_ModelParam.
    replace (76 <=? List.length
                      (ModelParam_to_bytes (BoostLearner.mparam saved) ++ tail))%nat
      with true
      by (symmetry; apply Nat.leb_le; rewrite length_app; lia).
    rewrite take_app_length', drop_app_length' by lia.
    eexists. split; [reflexivity|].
    cbn [BoostLearner.mparam BoostLearner.base_gbm BoostLearner.silent
         BoostLearner.train_ BoostLearner.evals_ BoostLearner.preds_
         BoostLearner.evname_].
    split; [|repeat split].
    apply ModelParam_of_to_bytes. exact Hv.
Qed.

(** X16: [LoadModel] fails with the ensemble when its segment does not
    parse.  When at least 76 bytes follow the segment, it takes exactly 76 of
    them, leaves the rest in the stream, and the record it ends with is
    decoded from those 76 bytes alone: nothing of the previous record
    remains. *)
Theorem LoadModel_full_record (L : BoostLearner.t FM G) (fi rest : IStream)
  (g' : G) :
  (forall msg,
      gbm_LoadModel (BoostLearner.base_gbm L) fi = Fatal msg ->
      BoostLearner.LoadModel L fi = Fatal msg)
  /\ (gbm_LoadModel (BoostLearner.base_gbm L) fi = Ok (g', rest) ->
      (sizeof_ModelParam <= List.length rest)%nat ->
      exists L',
        BoostLearner.LoadModel L fi = Ok (L', drop sizeof_ModelParam rest)
        /\ BoostLearner.mparam L'
           = ModelParam_of_bytes (take sizeof_ModelParam rest)
        /\ BoostLearner.base_gbm L' = g').
Proof.
  split.
  - intros msg Hg. unfold BoostLearner.LoadModel. rewrite Hg. reflexivity.
  - intros Hg Hlen. rewrite (LoadModel_outcome L fi rest g' Hg).
    assert (Htake : List.length (take sizeof_ModelParam rest)
                    = sizeof_ModelParam) by (rewrite length_take; lia).
    replace (sizeof_ModelParam <=? List.length rest)%nat with true
      by (symmetry; apply Nat.leb_le; exact Hlen).
    eexists. split; [reflexivity|].
    cbn [BoostLearner.mparam BoostLearner.base_gbm].
    split; [|reflexivity].
    apply ModelParam_of_bytes_prefix. exact Htake.
Qed.
End PersistenceMore.

Lemma LoadModel_after_SaveModel_witness :
  exists L',
    BoostLearner.LoadModel (gbm := Constant.ensemble N F32.zero)
      (BoostLearner.init tt)
      (BoostLearner.SaveModel (gbm := Constant.ensemble N F32.zero)
         logistic_learner [] ++ [Byte.xff; Byte.x00])
    = Ok (L', [Byte.xff; Byte.x00])
    /\ BoostLearner.mparam L' = BoostLearner.mparam logistic_learner.
Proof.
  destruct (LoadModel_after_SaveModel (gbm := Constant.ensemble N F32.zero)
              logistic_learner (BoostLearner.init tt) tt []
              [Byte.xff; Byte.x00])
    as (_ & _ & L' & Hload & Hm & _).
  - unfold ModelParam_valid, is_int32, logistic_learner, kLogisticClassify.
    cbn [BoostLearner.mparam ModelParam.base_score ModelParam.loss_type
         ModelParam.num_feature ModelParam.reserved].
    split; [reflexivity|]. split; [lia|]. split; [lia|].
    split; [reflexivity|].
    apply Forall_forall. intros z Hz.
    apply elem_of_replicate in Hz as [-> _]. lia.
  - intros rest. reflexivity.
  - exists L'. split; [exact Hload | exact Hm].
Defined.

Lemma LoadModel_full_record_witness :
  exists L',
    BoostLearner.LoadModel (gbm := Constant.ensemble N F32.zero)
      logistic_learner
      (Constant.segment ++ replicate 77 Byte.x01)
    = Ok (L', [Byte.x01])
    /\ BoostLearner.mparam L' = ModelParam_of_bytes (replicate 76 Byte.x01).
Proof.
  destruct (LoadModel_full_record (gbm := Constant.ensemble N F32.zero)
              logistic_learner (Constant.segment ++ replicate 77 Byte.x01)
              (replicate 77 Byte.x01) tt) as [_ Hfull].
  destruct Hfull as (L' & Hload & Hm & _);
    [reflexivity | unfold sizeof_ModelParam; rewrite length_replicate; lia |].
  exists L'. split; [exact Hload | exact Hm].
Defined.

(** ** Parameters through the learner, and the trainer *)

Section LearnerParams.
Context (libm : LibM) {FM G E : Type} {fmat : FMatrix FM} {gbm : GBTree FM G}
  {evalset : EvalSet E}.

Lemma SetData_console (L : BoostLearner.t FM G) (train : DMatrix FM)
  (evals : list (DMatrix FM)) (evname : list string) :
  BoostLearner.console (BoostLearner.SetData L train evals evname)
  = BoostLearner.console L
    ++ (if BoostLearner.silent L =? 0
        then [("buffer_size="
               ++ sprintf_u (to_uint32 (Z.of_N (Size train) + total_rows evals))
               ++ newline)%string]
        else []).
Proof.
  rewrite <- SetData_bounds_count. unfold BoostLearner.SetData.
  destruct (BoostLearner.SetData_bounds train evals) as [c nf]. cbn [fst].
  destruct (nf >? _); cbn [BoostLearner.console];
    destruct (BoostLearner.silent L =? 0); rewrite ?app_nil_r; reflexivity.
Qed.

(** X17: the learner's [SetParam] hands every pair to the record and to the
    ensemble.  Under a name that is none of "silent", "eval_metric",
    "base_score", "loss_type" and "bst:num_feature", nothing of the learner
    changes but the ensemble, which has received the pair, and the evaluator
    is not called. *)
Theorem SetParam_forwards (T : Evaluated.t FM G E) (name val : string) :
  (BoostLearner.base_gbm (Evaluated.learner (Evaluated.SetParam libm T name val))
   = gbm_SetParam (BoostLearner.base_gbm (Evaluated.learner T)) name val
   /\ BoostLearner.mparam
        (Evaluated.learner (Evaluated.SetParam libm T name val))
      = ModelParam.SetParam libm (BoostLearner.mparam (Evaluated.learner T))
          name val)
  /\ (name <> "silent"%string -> name <> "eval_metric"%string ->
      name <> "base_score"%string -> name <> "loss_type"%string ->
      name <> "bst:num_feature"%string ->
      BoostLearner.mparam
        (Evaluated.learner (Evaluated.SetParam libm T name val))
      = BoostLearner.mparam (Evaluated.learner T)
      /\ BoostLearner.silent
           (Evaluated.learner (Evaluated.SetParam libm T name val))
         = BoostLearner.silent (Evaluated.learner T)
      /\ Evaluated.evaluator_ (Evaluated.SetParam libm T name val)
         = Evaluated.evaluator_ T
      /\ BoostLearner.train_
           (Evaluated.learner (Evaluated.SetParam libm T name val))
         = BoostLearner.train_ (Evaluated.learner T)
      /\ BoostLearner.console
           (Evaluated.learner (Evaluated.SetParam libm T name val))
         = BoostLearner.console (Evaluated.learner T)
      /\ BoostLearner.evals_
           (Evaluated.learner (Evaluated.SetParam libm T name val))
         = BoostLearner.evals_ (Evaluated.learner T)
      /\ BoostLearner.evname_
           (Evaluated.learner (Evaluated.SetParam libm T name val))
         = BoostLearner.evname_ (Evaluated.learner T)).
Proof.
  split; [split; reflexivity|].
  intros Hs He Hb Hl Hn. unfold Evaluated.SetParam.
  cbn [Evaluated.learner Evaluated.evaluator_ BoostLearner.mparam
       BoostLearner.silent BoostLearner.train_ BoostLearner.console
       BoostLearner.evals_ BoostLearner.evname_].
  unfold ModelParam.SetParam.
  rewrite (streq_neq _ _ Hb), (streq_neq _ _ Hl), (streq_neq _ _ Hn).
  assert (Hsil : streq name "silent" = false)
    by (unfold streq; apply String.eqb_neq; exact Hs).
  assert (Hev : streq name "eval_metric" = false)
    by (unfold streq; apply String.eqb_neq; exact He).
  rewrite Hsil, Hev. repeat split.
Qed.

(** X18: "silent" set through the learner governs the line [SetData] prints:
    after setting it to a non-zero [int] the binding prints nothing; after
    setting it to 0 it prints "buffer_size=" with the slot count. *)
Theorem SetParam_silent_SetData (T : Evaluated.t FM G E) (v : Z)
  (train : DMatrix FM) (evals : list (DMatrix FM)) (evname : list string) :
  is_int32 v ->
  BoostLearner.silent
    (Evaluated.learner (Evaluated.SetParam libm T "silent" (sprintf_d v))) = v
  /\ BoostLearner.console
       (BoostLearner.SetData
          (Evaluated.learner (Evaluated.SetParam libm T "silent" (sprintf_d v)))
          train evals evname)
     = BoostLearner.console (Evaluated.learner T)
       ++ (if v =? 0
           then [("buffer_size="
                  ++ sprintf_u (to_uint32 (Z.of_N (Size train)
                                           + total_rows evals))
                  ++ newline)%string]
           else []).
Proof.
  intros Hv.
  assert (Hsilent :
    BoostLearner.silent
      (Evaluated.learner (Evaluated.SetParam libm T "silent" (sprintf_d v)))
    = v).
  { unfold Evaluated.SetParam. cbn [Evaluated.learner BoostLearner.silent].
    cbn [streq String.eqb Ascii.eqb Bool.eqb].
    apply atoi_sprintf_d. exact Hv. }
  split; [exact Hsilent|].
  rewrite SetData_console, Hsilent. reflexivity.
Qed.
End LearnerParams.

Section Trainer.
Context (libm : LibM) {FM G : Type} {gbm : GBTree FM G}
  {trainer : GBTreeTrainer G}.

(** X19: [InitTrainer] always registers one more metric and then calls
    [Init]: "error" when the loss is LOGISTIC_CLASSIFY, "rmse" for every
    other value of [loss_type]; a metric set before through "eval_metric"
    stays registered ahead of it.  The record is not touched, the ensemble
    gets [InitTrainer]. *)
Theorem InitTrainer_default_metric
  (T : Evaluated.t FM G (list EvalRecorder.call)) (val : string) :
  let default :=
    if ModelParam.loss_type (BoostLearner.mparam (Evaluated.learner T))
       =? kLogisticClassify
    then "error"%string else "rmse"%string in
  Evaluated.evaluator_ (Evaluated.InitTrainer T)
  = Evaluated.evaluator_ T
    ++ [EvalRecorder.CAddEval default; EvalRecorder.CInit]
  /\ Evaluated.evaluator_
       (Evaluated.InitTrainer (Evaluated.SetParam libm T "eval_metric" val))
     = Evaluated.evaluator_ T
       ++ [EvalRecorder.CAddEval val; EvalRecorder.CAddEval default;
           EvalRecorder.CInit]
  /\ BoostLearner.mparam (Evaluated.learner (Evaluated.InitTrainer T))
     = BoostLearner.mparam (Evaluated.learner T)
  /\ BoostLearner.base_gbm (Evaluated.learner (Evaluated.InitTrainer T))
     = gbm_InitTrainer (BoostLearner.base_gbm (Evaluated.learner T)).
Proof.
  cbv zeta. unfold Evaluated.InitTrainer, Evaluated.SetParam.
  cbn [Evaluated.learner Evaluated.evaluator_ BoostLearner.mparam
       BoostLearner.base_gbm].
  change (ModelParam.SetParam libm
            (BoostLearner.mparam (Evaluated.learner T)) "eval_metric" val)
    with (BoostLearner.mparam (Evaluated.learner T)).
  cbn [streq String.eqb Ascii.eqb Bool.eqb].
  destruct (ModelParam.loss_type _ =? kLogisticClassify);
    cbn [eval_AddEval eval_Init EvalRecorder.recording];
    rewrite <- !app_assoc; repeat split.
Qed.
End Trainer.

Lemma SetParam_forwards_witness :
  BoostLearner.mparam
    (Evaluated.learner
       (Evaluated.SetParam (gbm := Constant.ensemble N F32.zero)
          libm_special_values logistic_trainer "bst:max_depth" "6"))
  = BoostLearner.mparam logistic_learner
  /\ Evaluated.evaluator_
       (Evaluated.SetParam (gbm := Constant.ensemble N F32.zero)
          libm_special_values logistic_trainer "bst:max_depth" "6")
     = [].
Proof.
  destruct (SetParam_forwards (gbm := Constant.ensemble N F32.zero)
              libm_special_values logistic_trainer "bst:max_depth" "6")
    as [_ Hframe].
  destruct Hframe as (Hm & _ & He & _); try discriminate.
  split; [exact Hm | exact He].
Defined.

Lemma SetParam_silent_SetData_witness :
  BoostLearner.console
    (BoostLearner.SetData (gbm := Constant.ensemble N F32.zero)
       (Evaluated.learner
          (Evaluated.SetParam (gbm := Constant.ensemble N F32.zero)
             libm_special_values logistic_trainer "silent" (sprintf_d 0)))
       (mkDMatrix 3%N [F32.one; F32.zero] 2) [mkDMatrix 3%N [F32.one] 1]
       ["test"%string])
  = [("buffer_size=3" ++ newline)%string].
Proof.
  apply (SetParam_silent_SetData (gbm := Constant.ensemble N F32.zero)
           libm_special_values logistic_trainer 0
           (mkDMatrix 3%N [F32.one; F32.zero] 2) [mkDMatrix 3%N [F32.one] 1]
           ["test"%string]).
  unfold is_int32. lia.
Defined.

Section Constructors.
Context {FM G : Type} {fmat : FMatrix FM} {gbm : GBTree FM G}.

(** X20: the constructor that binds data always prints the "buffer_size="
    line, [silent] being 0 while it runs; the learner it builds has the
    default bias 0.5 and loss LINEAR_SQUARE, a feature bound that is not
    negative and not below the column count, read as an [int], of any of the
    sets, and the training set stored. *)
Theorem init_bound_state (g : G) (train : DMatrix FM)
  (evals : list (DMatrix FM)) (evname : list string) :
  let L := BoostLearner.init_bound g train evals evname in
  BoostLearner.console L
  = [("buffer_size="
      ++ sprintf_u (to_uint32 (Z.of_N (Size train) + total_rows evals))
      ++ newline)%string]
  /\ BoostLearner.silent L = 0
  /\ ModelParam.base_score (BoostLearner.mparam L) = F32.half
  /\ ModelParam.loss_type (BoostLearner.mparam L) = kLinearSquare
  /\ 0 <= ModelParam.num_feature (BoostLearner.mparam L)
  /\ Forall (fun d => int_cols d
                      <= ModelParam.num_feature (BoostLearner.mparam L))
       (train :: evals)
  /\ BoostLearner.train_ L = Some train.
Proof.
  cbv zeta. unfold BoostLearner.init_bound.
  rewrite SetData_console, SetData_mparam.
  cbn [BoostLearner.init BoostLearner.console BoostLearner.silent
       BoostLearner.mparam ModelParam.init ModelParam.set_num_feature
       ModelParam.base_score ModelParam.loss_type ModelParam.num_feature].
  destruct (SetData_bounds_cols train evals) as [Hall _].
  split; [reflexivity|].
  split.
  { unfold BoostLearner.SetData.
    destruct (BoostLearner.SetData_bounds train evals) as [c nf].
    destruct (nf >? _); reflexivity. }
  split; [reflexivity | split; [reflexivity | split; [lia | split]]].
  - eapply Forall_impl; [exact Hall|]. cbn. intros d Hd. lia.
  - unfold BoostLearner.SetData.
    destruct (BoostLearner.SetData_bounds train evals) as [c nf].
    destruct (nf >? _); reflexivity.
Qed.
End Constructors.
